(** * final1.py: BasicRealEstateScraper

    A shallow embedding of the scraping and keyword pipeline of
    [final1.py] (class [BasicRealEstateScraper]): [extract_price],
    [analyze_sentiment], [scrape_listings] and [analyze_keywords].

    Conventions.
    - A Python [str] is a list of Unicode code points ([text]).
    - A Python [float] is an IEEE 754 binary64 value, [spec_float] of the
      standard library at precision 53 and maximal exponent 1024.
    - A call that may raise returns a [result]: [Ok v] or [Raise e].
    - The scraper's effects ([requests.get], [sleep], appending to
      [listings]) are threaded through a state and exception monad [M].
      The calls to [print] are not part of the model.
    - What the class calls and does not define (requests, BeautifulSoup,
      TextBlob, RAKE, the sort behind [sort_values]) is a field of the
      record [World], over which every definition is stated. *)

From Stdlib Require Import ZArith NArith PArith List Bool String Ascii Lia.
From Stdlib Require Import DecimalString.
From Stdlib Require DecimalPos DecimalZ.
From Stdlib Require Import Sorted Permutation.
From Stdlib Require Import Floats.SpecFloat.
Import ListNotations.

(* ================================================================= *)
(** * Text *)

(** A [str]: its code points, in order. *)
Definition text := list N.

(** The code points of an ASCII literal of the source. *)
Fixpoint txt (s : string) : text :=
  match s with
  | EmptyString => []
  | String a r => N_of_ascii a :: txt r
  end.

Fixpoint text_eqb (a b : text) : bool :=
  match a, b with
  | [], [] => true
  | x :: a', y :: b' => N.eqb x y && text_eqb a' b'
  | _, _ => false
  end.

(** Truthiness of a [str]: the empty string is falsy. *)
Definition text_truthy (t : text) : bool :=
  match t with [] => false | _ :: _ => true end.

Module Unicode.

(** [str.isspace] on one code point: the characters of bidirectional
    type WS, B or S and of category Zs. *)
Definition isspace (c : N) : bool :=
  ((9 <=? c) && (c <=? 13) || (28 <=? c) && (c <=? 32)
   || (c =? 133) || (c =? 160) || (c =? 5760)
   || (8192 <=? c) && (c <=? 8202)
   || (c =? 8232) || (c =? 8233) || (c =? 8239) || (c =? 8287)
   || (c =? 12288))%N.

(** The value of an ASCII digit. *)
Definition ascii_digit (c : N) : option N :=
  if ((48 <=? c) && (c <=? 57))%N then Some (c - 48)%N else None.

(** The digit value of a code point, if it is a decimal digit: what
    [\d] of [re] matches in a [str], and what [float] reads. Outside
    ASCII the decimal digits (category Nd) and their values come from
    [nd_table], the table of the interpreter's Unicode database. *)
Definition digit_value (nd_table : N -> option N) (c : N) : option N :=
  if (c <? 128)%N then ascii_digit c else nd_table c.

Definition isdecimal (nd_table : N -> option N) (c : N) : bool :=
  match digit_value nd_table c with Some _ => true | None => false end.

Definition full_stop : N := 46.

End Unicode.

(** [s.strip()]: leading and trailing white space removed. *)
Fixpoint lstrip (t : text) : text :=
  match t with
  | [] => []
  | c :: r => if Unicode.isspace c then lstrip r else t
  end.

Definition rstrip (t : text) : text := rev (lstrip (rev t)).

Definition strip (t : text) : text := rstrip (lstrip t).

(* ================================================================= *)
(** * Results and exceptions *)

Inductive exn : Type :=
| ValueError (msg : text)          (* float() on an ill-formed literal *)
| KeyError (key : string)          (* a missing attribute or column *)
| LibraryError (code : N).         (* an exception raised by a library *)

Inductive result (A : Type) : Type :=
| Ok (v : A)
| Raise (e : exn).

Arguments Ok {A} v.
Arguments Raise {A} e.

(* ================================================================= *)
(** * Floats *)

Definition float : Type := spec_float.

Module PyFloat.

Definition prec : Z := 53.
Definition emax : Z := 1024.

Fixpoint pow10 (k : nat) : positive :=
  match k with
  | O => 1
  | S k' => 10 * pow10 k'
  end.

(** The binary64 nearest to [n / 10^k] (ties to even), for the decimal
    literal made of the digits of [n] with [k] of them after the point;
    a literal too large for binary64 gives infinity, as [float] does. *)
Definition of_decimal (n : N) (k : nat) : float :=
  match n with
  | N0 => S754_zero false
  | Npos m => SFdiv prec emax (S754_finite false m 0)
                    (S754_finite false (pow10 k) 0)
  end.

Definition is_nan (x : float) : bool :=
  match x with S754_nan => true | _ => false end.

Definition is_zero (x : float) : bool :=
  match x with S754_zero _ => true | _ => false end.

(** Truthiness of a [float]: the two zeros are falsy, all else
    (NaN and the infinities too) is truthy. *)
Definition truthy (x : float) : bool := negb (is_zero x).

(** [x == y] *)
Definition eqb (x y : float) : bool := SFeqb x y.

(** [x <= y] *)
Definition leb (x y : float) : bool := SFleb x y.

End PyFloat.

(* ================================================================= *)
(** * Data model *)

(** A tag of the parsed page: its [.text] and its attributes. *)
Record Tag : Type := {
  tag_text : text;
  tag_attrs : list (string * text)
}.

(** [tag[key]]: the attribute, or [KeyError]. *)
Fixpoint attr_lookup (attrs : list (string * text)) (key : string) : option text :=
  match attrs with
  | [] => None
  | (k, v) :: r => if String.eqb k key then Some v else attr_lookup r key
  end.

Definition tag_getitem (t : Tag) (key : string) : result text :=
  match attr_lookup (tag_attrs t) key with
  | Some v => Ok v
  | None => Raise (KeyError key)
  end.

(** A property card ([div.mb-srp__card]), by what [scrape_listings] looks
    up in it; each [find] gives the first matching tag or [None]. *)
Record Card : Type := {
  find_price : option Tag;     (* card.find('div', {'class': 'mb-srp__card__price'}) *)
  find_title : option Tag;     (* card.find('h2', {'class': 'mb-srp__card--title'}) *)
  find_area : option Tag;      (* card.find('div', {'class': 'mb-srp__card__area'}) *)
  find_a : option Tag          (* card.find('a') *)
}.

(** The dict [listing]. *)
Record Listing : Type := {
  price : option float;
  title : option text;
  area : option text;
  url : option text;
  sentiment : option float
}.

(** The answer of [requests.get]. *)
Record Response : Type := {
  status_code : Z;
  content : list Byte.byte
}.

(** A row of [keywords_df]. *)
Record KeywordRow : Type := {
  score : float;
  keyword : text
}.

(** The frame [pd.DataFrame(listings)]: its column labels and its rows. *)
Record DataFrame : Type := {
  columns : list string;
  rows : list Listing
}.

(** A list of dicts gives the columns of their keys; an empty list gives a
    frame with no column at all. *)
Definition pd_DataFrame (l : list Listing) : DataFrame :=
  match l with
  | [] => {| columns := []; rows := [] |}
  | _ :: _ =>
      {| columns := ["price"; "title"; "area"; "url"; "sentiment"]%string;
         rows := l |}
  end.

(** [df['title']]: the column, or [KeyError] when no column has the label. *)
Definition df_getitem_title (df : DataFrame) : result (list (option text)) :=
  if existsb (String.eqb "title") (columns df)
  then Ok (map title (rows df))
  else Raise (KeyError "title").

(** [Series.dropna] *)
Fixpoint dropna {A} (l : list (option A)) : list A :=
  match l with
  | [] => []
  | Some v :: r => v :: dropna r
  | None :: r => dropna r
  end.

(** [sep.join(parts)] *)
Fixpoint join (sep : text) (parts : list text) : text :=
  match parts with
  | [] => []
  | [p] => p
  | p :: r => p ++ sep ++ join sep r
  end.

(** Two rows are duplicates of one another when they agree in every
    column; in a float column pandas takes two NaN for equal. *)
Definition score_same (x y : float) : bool :=
  PyFloat.eqb x y || (PyFloat.is_nan x && PyFloat.is_nan y).

Definition row_same (a b : KeywordRow) : bool :=
  score_same (score a) (score b) && text_eqb (keyword a) (keyword b).

(** No row of the list is a duplicate of another one. *)
Definition distinct_rows (l : list KeywordRow) : Prop :=
  ForallOrdPairs (fun a b => row_same a b = false) l.

(** [DataFrame.drop_duplicates()]: of the rows that are duplicates the
    first one is kept. *)
Fixpoint drop_duplicates_from (seen : list KeywordRow) (l : list KeywordRow)
  : list KeywordRow :=
  match l with
  | [] => []
  | r :: l' =>
      if existsb (row_same r) seen then drop_duplicates_from seen l'
      else r :: drop_duplicates_from (r :: seen) l'
  end.

Definition drop_duplicates (l : list KeywordRow) : list KeywordRow :=
  drop_duplicates_from [] l.

(** The order of [sort_values(by='score', ascending=False)]: scores go
    down, and the rows with a NaN score come last. [score_desc a b] says
    that [a] may stand right before [b]. *)
Definition score_desc (a b : KeywordRow) : bool :=
  PyFloat.is_nan (score b)
  || (negb (PyFloat.is_nan (score a)) && PyFloat.leb (score b) (score a)).

(** [DataFrame.head(n)] *)
Definition head (n : nat) (l : list KeywordRow) : list KeywordRow := firstn n l.

(** A sort by insertion with the order of [score_desc]: one sort that
    [sort_values] may be (see [World]). *)
Fixpoint insert_desc (r : KeywordRow) (l : list KeywordRow) : list KeywordRow :=
  match l with
  | [] => [r]
  | x :: l' => if score_desc x r then x :: insert_desc r l' else r :: l
  end.

Fixpoint insertion_sort_desc (l : list KeywordRow) : list KeywordRow :=
  match l with
  | [] => []
  | r :: l' => insert_desc r (insertion_sort_desc l')
  end.

(* ================================================================= *)
(** * The libraries *)

(** What the class calls and does not define. *)
Record World : Type := {
  (** the decimal digits outside ASCII (see [Unicode.digit_value]) *)
  nd_table : N -> option N;
  (** [TextBlob(text).sentiment.polarity] *)
  polarity : text -> result float;
  (** [requests.get(url, headers=self.headers)]; a run asks for each URL
      once *)
  requests_get : text -> result Response;
  (** [BeautifulSoup(content, 'html.parser').find_all('div',
      {'class': 'mb-srp__card'})] *)
  find_all_cards : list Byte.byte -> result (list Card);
  (** [rake.extract_keywords_from_text(t)] followed by
      [rake.get_ranked_phrases_with_scores()] *)
  ranked_phrases_with_scores : text -> result (list (float * text));
  (** [sort_values(by='score', ascending=False)]; pandas sorts with the
      quicksort of numpy, which fixes no order among equal scores *)
  sort_values_desc : list KeywordRow -> list KeywordRow
}.

(** What is known of [sort_values]: it reorders its rows, into
    [score_desc] order. *)
Definition sort_contract (w : World) : Prop :=
  (forall l, Permutation (sort_values_desc w l) l)
  /\ (forall l, Sorted (fun a b => score_desc a b = true) (sort_values_desc w l)).

(* ================================================================= *)
(** * Results, state and exceptions *)

Definition bind_result {A B} (r : result A) (k : A -> result B) : result B :=
  match r with
  | Ok v => k v
  | Raise e => Raise e
  end.

Declare Scope result_scope.
Delimit Scope result_scope with result.
Notation "x <- r ;; k" := (bind_result r (fun x => k))
  (at level 61, r at next level, right associativity) : result_scope.

(** What a run does to the outside, in order. *)
Inductive event : Type :=
| Get (url : text)          (* requests.get(url, ...) *)
| Sleep (seconds : N).      (* sleep(seconds) *)

(** The list [listings] of [scrape_listings] and the events so far. *)
Record state : Type := {
  listings : list Listing;
  trace : list event
}.

(** A statement: from a state, a value or an exception, and the state it
    leaves. What was appended before an exception stays appended. *)
Definition M (A : Type) : Type := state -> result A * state.

Definition ret {A} (v : A) : M A := fun st => (Ok v, st).

Definition bind {A B} (m : M A) (k : A -> M B) : M B :=
  fun st =>
    match m st with
    | (Ok v, st') => k v st'
    | (Raise e, st') => (Raise e, st')
    end.

Declare Scope stmt_scope.
Delimit Scope stmt_scope with stmt.
Notation "x <- m ;; k" := (bind m (fun x => k))
  (at level 61, m at next level, right associativity) : stmt_scope.
Notation "m ;;; k" := (bind m (fun _ => k))
  (at level 61, right associativity) : stmt_scope.

Definition lift {A} (r : result A) : M A := fun st => (r, st).

Definition emit (e : event) : M unit :=
  fun st => (Ok tt, {| listings := listings st; trace := trace st ++ [e] |}).

(** [listings = []] *)
Definition reset_listings : M unit :=
  fun st => (Ok tt, {| listings := []; trace := trace st |}).

(** [listings.append(l)] *)
Definition append_listing (l : Listing) : M unit :=
  fun st => (Ok tt, {| listings := listings st ++ [l]; trace := trace st |}).

Definition get_listings : M (list Listing) :=
  fun st => (Ok (listings st), st).

(** [try: body except Exception as e: handler] *)
Definition try_except {A} (body : M A) (handler : exn -> M A) : M A :=
  fun st =>
    match body st with
    | (Ok v, st') => (Ok v, st')
    | (Raise e, st') => handler e st'
    end.

(** [for x in l: body], where [body] ends its turn normally or by
    [continue]. *)
Fixpoint for_each {A} (l : list A) (body : A -> M unit) : M unit :=
  match l with
  | [] => ret tt
  | x :: r => bind (body x) (fun _ => for_each r body)
  end.

(** [range(lo, hi)] *)
Definition range (lo hi : Z) : list Z :=
  map (fun i => (lo + Z.of_nat i)%Z) (seq 0 (Z.to_nat (hi - lo))).

(** [str(n)] for an [int] *)
Definition str_of_int (n : Z) : text := txt (NilZero.string_of_int (Z.to_int n)).

(* ================================================================= *)
(** * BasicRealEstateScraper *)

Definition base_url : text := txt "https://www.magicbricks.com".

Section Scraper.
Variable w : World.

(** ** extract_price *)

(** The character class [[\d.]]. *)
Definition price_char (c : N) : bool :=
  Unicode.isdecimal (nd_table w) c || (c =? Unicode.full_stop)%N.

(** The longest prefix made of characters of the class. *)
Fixpoint take_run (t : text) : text :=
  match t with
  | [] => []
  | c :: r => if price_char c then c :: take_run r else []
  end.

(** [re.search(r'[\d.]+', t)]: the group of the leftmost match, which
    the greedy [+] extends as far as the class allows. *)
Fixpoint re_search (t : text) : option text :=
  match t with
  | [] => None
  | c :: r => if price_char c then Some (c :: take_run r) else re_search r
  end.

(** Reading a literal made of digits and at most one full stop: the
    number [n] its digits spell, how many of them follow the point
    ([k]) and how many there are ([digits]). *)
Fixpoint scan_literal (t : text) (dot : bool) (n : N) (k digits : nat)
  : option (N * nat * nat) :=
  match t with
  | [] => Some (n, k, digits)
  | c :: r =>
      match Unicode.digit_value (nd_table w) c with
      | Some d =>
          scan_literal r dot (10 * n + d)%N (if dot then S k else k) (S digits)
      | None =>
          if (c =? Unicode.full_stop)%N && negb dot
          then scan_literal r true n k digits
          else None
      end
  end.

(** [float(t)] for a [t] made of decimal digits and full stops, which is
    all [extract_price] passes to it: a literal has at least one digit
    and at most one point; anything else is a [ValueError]. *)
Definition float_of_str (t : text) : result float :=
  match scan_literal t false 0 0 0 with
  | Some (n, k, S _) => Ok (PyFloat.of_decimal n k)
  | _ => Raise (ValueError t)
  end.

Definition extract_price (price_text : option text) : result (option float) :=
  match price_text with
  | None => Ok None
  | Some t =>
      if negb (text_truthy t) then Ok None
      else
        match re_search t with
        | Some group => (f <- float_of_str group ;; Ok (Some f))%result
        | None => Ok None
        end
  end.

(** [PriceNormalizer.normalize] as the specification words it, to be
    compared with [extract_price]: the first match of one or more digits,
    optionally followed by a full stop and more digits, parsed as a float;
    absent when there is no digit or no text. *)
Fixpoint span_digits (t : text) : text * text :=
  match t with
  | [] => ([], [])
  | c :: r =>
      if Unicode.isdecimal (nd_table w) c
      then let (ds, rest) := span_digits r in (c :: ds, rest)
      else ([], t)
  end.

Definition digit_run_at (t : text) : option text :=
  match span_digits t with
  | ([], _) => None
  | (ds, c :: rest) =>
      if (c =? Unicode.full_stop)%N then
        match span_digits rest with
        | ([], _) => Some ds
        | (fs, _) => Some (ds ++ c :: fs)
        end
      else Some ds
  | (ds, []) => Some ds
  end.

Fixpoint first_digit_run (t : text) : option text :=
  match t with
  | [] => None
  | _ :: r =>
      match digit_run_at t with
      | Some run => Some run
      | None => first_digit_run r
      end
  end.

Definition normalize_as_specified (price_text : option text) : option float :=
  match price_text with
  | None => None
  | Some t =>
      match first_digit_run t with
      | Some run =>
          match float_of_str run with
          | Ok f => Some f
          | Raise _ => None
          end
      | None => None
      end
  end.

(** ** analyze_sentiment *)

Definition analyze_sentiment (t : option text) : result (option float) :=
  match t with
  | Some s =>
      if text_truthy s then (p <- polarity w s ;; Ok (Some p))%result
      else Ok None
  | None => Ok None
  end.

(** ** scrape_listings *)

(** [elem.text.strip() if elem else None]; a tag is truthy. *)
Definition stripped_text (elem : option Tag) : option text :=
  match elem with
  | Some e => Some (strip (tag_text e))
  | None => None
  end.

(** [self.base_url + card.find('a')['href'] if card.find('a') else None] *)
Definition url_value (card : Card) : result (option text) :=
  match find_a card with
  | Some link =>
      (href <- tag_getitem link "href" ;; Ok (Some (base_url ++ href)))%result
  | None => Ok None
  end.

(** The dict display: its values are computed in the order written, and
    the first exception ends it. *)
Definition build_listing (card : Card) : result Listing :=
  (let price_elem := find_price card in
   let title_elem := find_title card in
   let area_elem := find_area card in
   let title := stripped_text title_elem in
   p <- extract_price (stripped_text price_elem) ;;
   let a := stripped_text area_elem in
   u <- url_value card ;;
   s <- analyze_sentiment title ;;
   Ok {| price := p; title := title; area := a; url := u; sentiment := s |})%result.

(** Truthiness of [listing['price']]. *)
Definition price_truthy (p : option float) : bool :=
  match p with
  | Some f => PyFloat.truthy f
  | None => false
  end.

(** The body of the loop over the cards, with its [try]. *)
Definition process_card (card : Card) : M unit :=
  try_except
    (listing <- lift (build_listing card) ;;
     if price_truthy (price listing) then append_listing listing
     else ret tt)%stmt
    (fun _ => ret tt).

(** The f-string of the page's address. *)
Definition page_url (city : text) (page : Z) : text :=
  base_url ++ txt "/property-for-sale/residential-real-estate?&cityName="
           ++ city ++ txt "&page=" ++ str_of_int page.

(** The body of the loop over the pages, with its [try]; a [continue]
    ends the body at once. *)
Definition scrape_page (city : text) (page : Z) : M unit :=
  try_except
    (let url := page_url city page in
     emit (Get url) ;;;
     response <- lift (requests_get w url) ;;
     if negb (status_code response =? 200)%Z then ret tt
     else
       property_cards <- lift (find_all_cards w (content response)) ;;
       for_each property_cards process_card ;;;
       emit (Sleep 2))%stmt
    (fun _ => ret tt).

Definition scrape_listings (city : text) (max_pages : Z) : M DataFrame :=
  (reset_listings ;;;
   for_each (range 1 (max_pages + 1)) (scrape_page city) ;;;
   l <- get_listings ;;
   ret (pd_DataFrame l))%stmt.

(** What the two loops come to, for the statements below: the listings
    a card and a page add to [listings], and the events of a page. *)
Definition card_listings (card : Card) : list Listing :=
  match build_listing card with
  | Ok listing => if price_truthy (price listing) then [listing] else []
  | Raise _ => []
  end.

(** The cards of a page that was fetched with status 200 and parsed. *)
Definition page_cards (city : text) (page : Z) : option (list Card) :=
  match requests_get w (page_url city page) with
  | Ok response =>
      if (status_code response =? 200)%Z then
        match find_all_cards w (content response) with
        | Ok cards => Some cards
        | Raise _ => None
        end
      else None
  | Raise _ => None
  end.

Definition page_listings (city : text) (page : Z) : list Listing :=
  match page_cards city page with
  | Some cards => flat_map card_listings cards
  | None => []
  end.

Definition page_events (city : text) (page : Z) : list event :=
  Get (page_url city page)
  :: match page_cards city page with
     | Some _ => [Sleep 2]
     | None => []
     end.

(** The fetch of a page fails: [requests.get] raises, or the status is
    not 200. *)
Definition fetch_fails (city : text) (page : Z) : bool :=
  match requests_get w (page_url city page) with
  | Ok response => negb (status_code response =? 200)%Z
  | Raise _ => true
  end.

(** ** analyze_keywords *)

Definition keyword_rows (keywords : list (float * text)) : list KeywordRow :=
  map (fun sk => {| score := fst sk; keyword := snd sk |}) keywords.

Definition analyze_keywords (df : DataFrame) : result (list KeywordRow) :=
  (titles <- df_getitem_title df ;;
   let all_titles := join (txt " ") (dropna titles) in
   keywords <- ranked_phrases_with_scores w all_titles ;;
   let keywords_df := keyword_rows keywords in
   let keywords_df := sort_values_desc w (drop_duplicates keywords_df) in
   let top_keywords := head 20 keywords_df in
   Ok top_keywords)%result.

End Scraper.

Definition is_get (e : event) : bool :=
  match e with Get _ => true | Sleep _ => false end.

Definition is_sleep (e : event) : bool :=
  match e with Sleep _ => true | Get _ => false end.

(* ================================================================= *)
(** * Sample pages and libraries *)

Module Sample.

Local Open Scope string_scope.

Definition div (t : string) : Tag := {| tag_text := txt t; tag_attrs := [] |}.

Definition a_href (target : string) : Tag :=
  {| tag_text := []; tag_attrs := [("href", txt target)] |}.


Definition card (price_text title_text : option string) (link : option Tag) : Card :=
  {| find_price := option_map div price_text;
     find_title := option_map div title_text;
     find_area := None;
     find_a := link |}.

Definition flat : Card :=
  card (Some "  50 Lakh ") (Some "2BHK Flat") (Some (a_href "/flat-1")).
Definition studio : Card :=
  card None (Some "Studio") (Some (a_href "/studio-2")).
Definition villa : Card :=
  card (Some "1.2 Cr") (Some "3BHK Villa") None.
Definition free : Card :=
  card (Some "0.0 Lakh") (Some "Free Plot") None.
Definition untitled : Card :=
  card (Some "75 Lakh") (Some "   ") None.

Definition mumbai : text := txt "Mumbai".

Definition ok_response : Response := {| status_code := 200; content := [] |}.
Definition failed_response : Response := {| status_code := 503; content := [] |}.

(** A library call that always raises. *)
Definition raising {A B} (_ : A) : result B := Raise (LibraryError 0).

Definition world (get : text -> result Response) (cards : list Card)
    (phrases : list (float * text)) : World :=
  {| nd_table := fun _ => None;
     polarity := fun _ => Ok (S754_zero false);
     requests_get := get;
     find_all_cards := fun _ => Ok cards;
     ranked_phrases_with_scores := fun _ => Ok phrases;
     sort_values_desc := insertion_sort_desc |}.

(** Page 1 is served, every other page fails with status 503. *)
Definition first_page_only (url : text) : result Response :=
  if text_eqb url (page_url mumbai 1) then Ok ok_response
  else Ok failed_response.

Definition all_fail (_ : text) : result Response := Ok failed_response.

(** The site of the end-to-end scenario: three cards on page 1, the
    second one without a price; page 2 is not served. *)
Definition site : World := world first_page_only [flat; studio; villa] [].

(** A site none of whose pages is served. *)
Definition down : World := world all_fail [] [].

(** A world whose sentiment scorer always raises. *)
Definition no_scorer : World :=
  {| nd_table := fun _ => None;
     polarity := raising;
     requests_get := first_page_only;
     find_all_cards := fun _ => Ok [untitled];
     ranked_phrases_with_scores := raising;
     sort_values_desc := insertion_sort_desc |}.

Definition st0 : state := {| listings := []; trace := [] |}.

(** Scores: [n / 10^k] as a float. *)
Definition sc (n : N) (k : nat) : float := PyFloat.of_decimal n k.

(** A ranker's answer with one phrase under two scores. *)
Definition twice : list (float * text) :=
  [(sc 2 0, txt "sea view"); (sc 1 0, txt "sea view")].

(** A ranker's answer with two phrases: [sea view] under the 21 scores
    1.0 to 21.0, and [garden] under 0.5. *)
Definition crowded : list (float * text) :=
  (sc 5 1, txt "garden")
  :: map (fun i => (sc (N.of_nat i) 0, txt "sea view")) (seq 1 21).

(** A ranker's answer that repeats one pair. *)
Definition repeated : list (float * text) :=
  [(sc 1 0, txt "garden"); (sc 2 0, txt "sea view"); (sc 1 0, txt "garden")].

(** A frame of one listing. *)
Definition one_row : DataFrame :=
  pd_DataFrame [{| price := Some (sc 50 0); title := Some (txt "2BHK Flat");
                   area := None; url := None; sentiment := None |}].

End Sample.

(* ================================================================= *)
(** * Notions for the statements *)

(** A text that neither begins nor ends with white space. *)
Definition stripped (t : text) : Prop :=
  match t with
  | [] => True
  | c :: _ => Unicode.isspace c = false
  end
  /\ match rev t with
     | [] => True
     | c :: _ => Unicode.isspace c = false
     end.

(** A float above zero: finite and positive, or plus infinity. *)
Definition positive_float (f : float) : Prop :=
  (exists m e, f = S754_finite false m e) \/ f = S754_infinity false.


(** The seconds a sequence of events sleeps in all. *)
Fixpoint sleep_seconds (events : list event) : N :=
  match events with
  | [] => 0
  | Sleep s :: r => s + sleep_seconds r
  | Get _ :: r => sleep_seconds r
  end.

(** The page was fetched with status 200 and its cards were read. *)
Definition page_processed (w : World) (city : text) (page : Z) : bool :=
  match page_cards w city page with
  | Some _ => true
  | None => false
  end.

(** How many cards the page showed, when it was processed. *)
Definition page_card_count (w : World) (city : text) (page : Z) : nat :=
  match page_cards w city page with
  | Some cards => List.length cards
  | None => 0
  end.


(* ================================================================= *)
(** * visualize_data and main *)

Definition output_dir : text := txt "output".

(** [df[label]] for a column of the listings: the values of the field,
    or [KeyError] when no column has the label. *)
Definition df_getitem {A} (df : DataFrame) (label : string)
    (field : Listing -> A) : result (list A) :=
  if existsb (String.eqb label) (columns df)
  then Ok (map field (rows df))
  else Raise (KeyError label).

(** [Series.dropna] on a column of floats, where an absent value is kept
    as NaN: the absent values and the NaN go. *)
Definition dropna_float (l : list (option float)) : list float :=
  filter (fun f => negb (PyFloat.is_nan f)) (dropna l).

(** The calls to [matplotlib.pyplot] of [visualize_data], with the
    arguments that carry data or a name; colours, sizes and the number
    of bins are constants of the source. *)
Inductive plt_call : Type :=
| figure                                         (* plt.figure(figsize=(10, 5)) *)
| hist (data : list float)                       (* plt.hist(data, bins=20, ...) *)
| barh (y : list text) (width : list float)      (* plt.barh(y, width, ...) *)
| set_title (label : string)                     (* plt.title(label) *)
| xlabel (label : string)
| ylabel (label : string)
| invert_yaxis                                   (* plt.gca().invert_yaxis() *)
| grid (axis : string)                           (* plt.grid(axis=axis, alpha=0.75) *)
| tight_layout
| savefig (path : text)
| show.

(** What [visualize_data] and [main] call beside the [World]. *)
Record Desktop : Type := {
  (** [os.sep], which [os.path.join] puts between the directory and the
      file name *)
  os_sep : text;
  (** a call to pyplot, after the calls made so far: it returns or
      raises *)
  plt : list plt_call -> plt_call -> result unit;
  (** [df.to_csv(path, index=False)] *)
  to_csv : text -> DataFrame -> result unit;
  (** [BasicRealEstateScraper()]: [__init__] reads the stop words,
      builds the [Rake] and makes the output directory *)
  construct : result unit
}.

(** A statement of [visualize_data]: from the calls made so far, a value
    or an exception, and the calls made then. *)
Definition V (A : Type) : Type := list plt_call -> result A * list plt_call.

Definition vret {A} (v : A) : V A := fun calls => (Ok v, calls).

Definition vbind {A B} (m : V A) (k : A -> V B) : V B :=
  fun calls =>
    match m calls with
    | (Ok v, calls') => k v calls'
    | (Raise e, calls') => (Raise e, calls')
    end.

Definition vlift {A} (r : result A) : V A := fun calls => (r, calls).

Declare Scope plot_scope.
Delimit Scope plot_scope with plot.
Notation "x <- m ;; k" := (vbind m (fun x => k))
  (at level 61, m at next level, right associativity) : plot_scope.
Notation "m ;;; k" := (vbind m (fun _ => k))
  (at level 61, right associativity) : plot_scope.

Section Report.
Variable d : Desktop.

(** [os.path.join(self.output_dir, name)] *)
Definition output_path (name : string) : text :=
  output_dir ++ os_sep d ++ txt name.

(** One call to pyplot: it is made, and returns or raises. *)
Definition call (c : plt_call) : V unit :=
  fun calls => (plt d calls c, calls ++ [c]).

Definition visualize_data (df : DataFrame) (keywords_df : list KeywordRow)
  : V unit :=
  (call figure ;;;
   prices <- vlift (df_getitem df "price" price) ;;
   call (hist (dropna_float prices)) ;;;
   call (set_title "Price Distribution of Properties") ;;;
   call (xlabel "Price (in lakhs or crores)") ;;;
   call (ylabel "Frequency") ;;;
   call (grid "y") ;;;
   call tight_layout ;;;
   call (savefig (output_path "price_distribution.png")) ;;;
   call show ;;;
   call figure ;;;
   call (barh (map keyword keywords_df) (map score keywords_df)) ;;;
   call (xlabel "Keyword Score") ;;;
   call (set_title "Top Keywords in Property Listings") ;;;
   call invert_yaxis ;;;
   call (grid "x") ;;;
   call tight_layout ;;;
   call (savefig (output_path "top_keywords.png")) ;;;
   call show ;;;
   call figure ;;;
   sentiments <- vlift (df_getitem df "sentiment" sentiment) ;;
   call (hist (dropna_float sentiments)) ;;;
   call (set_title "Sentiment Analysis of Listing Titles") ;;;
   call (xlabel "Sentiment Polarity") ;;;
   call (ylabel "Frequency") ;;;
   call (grid "y") ;;;
   call tight_layout ;;;
   call (savefig (output_path "sentiment_distribution.png")) ;;;
   call show)%plot.

(** What [main] leaves behind: the outcome, the state of the scraper with
    its requests and delays, the calls to [to_csv] (path and frame) and
    the calls to pyplot. *)
Record Outcome : Type := {
  returned : result unit;
  scraped : state;
  to_csv_calls : list (text * DataFrame);
  plotted : list plt_call
}.

Definition main (w : World) (st : state) : Outcome :=
  match construct d with
  | Raise e =>
      {| returned := Raise e; scraped := st; to_csv_calls := []; plotted := [] |}
  | Ok _ =>
      match scrape_listings w (txt "Mumbai") 2 st with
      | (Raise e, st') =>
          {| returned := Raise e; scraped := st'; to_csv_calls := [];
             plotted := [] |}
      | (Ok df, st') =>
          let csv_filename := output_path "raw_listings.csv" in
          match to_csv d csv_filename df with
          | Raise e =>
              {| returned := Raise e; scraped := st';
                 to_csv_calls := [(csv_filename, df)]; plotted := [] |}
          | Ok _ =>
              match analyze_keywords w df with
              | Raise e =>
                  {| returned := Raise e; scraped := st';
                     to_csv_calls := [(csv_filename, df)]; plotted := [] |}
              | Ok keywords_df =>
                  let (r, calls) := visualize_data df keywords_df [] in
                  {| returned := r; scraped := st';
                     to_csv_calls := [(csv_filename, df)]; plotted := calls |}
              end
          end
      end
  end.

End Report.

Definition is_savefig (c : plt_call) : bool :=
  match c with savefig _ => true | _ => false end.

(** [m] saves the figures [files], in this order, and no other: the
    calls it makes only add to those made before; the [savefig] among
    them are the first of [files], and all of [files] when [m] returns. *)
Definition saves {A} (m : V A) (files : list text) : Prop :=
  forall calls, exists made,
    snd (m calls) = calls ++ made
    /\ (exists later, map savefig files = filter is_savefig made ++ later)
    /\ (forall v, fst (m calls) = Ok v ->
                  filter is_savefig made = map savefig files).

(** A desktop where every call returns. *)
Definition quiet_desktop : Desktop :=
  {| os_sep := txt "/";
     plt := fun _ _ => Ok tt;
     to_csv := fun _ _ => Ok tt;
     construct := Ok tt |}.

(* ================================================================= *)
(** * The loops of scrape_listings *)

Section Loops.
Variable w : World.

Lemma process_card_run (card : Card) (st : state) :
  process_card w card st =
  (Ok tt, {| listings := listings st ++ card_listings w card;
             trace := trace st |}).
Proof.
  unfold process_card, try_except, bind, lift, card_listings.
  destruct st as [ls tr]; simpl.
  destruct (build_listing w card) as [l | e]; simpl.
  - destruct (price_truthy (price l)); simpl.
    + reflexivity.
    + now rewrite app_nil_r.
  - now rewrite app_nil_r.
Qed.

Lemma for_each_cards_run (cards : list Card) (st : state) :
  for_each cards (process_card w) st =
  (Ok tt, {| listings := listings st ++ flat_map (card_listings w) cards;
             trace := trace st |}).
Proof.
  revert st; induction cards as [| c cards IH]; intros [ls tr]; simpl.
  - unfold ret. now rewrite app_nil_r.
  - unfold bind. rewrite process_card_run; simpl.
    rewrite IH; simpl. now rewrite app_assoc.
Qed.

Lemma scrape_page_run (city : text) (page : Z) (st : state) :
  scrape_page w city page st =
  (Ok tt, {| listings := listings st ++ page_listings w city page;
             trace := trace st ++ page_events w city page |}).
Proof.
  unfold scrape_page, try_except, bind, lift, emit, ret,
    page_listings, page_events, page_cards.
  destruct st as [ls tr]; simpl.
  destruct (requests_get w (page_url city page)) as [r | e]; simpl.
  - destruct (status_code r =? 200)%Z; simpl.
    + destruct (find_all_cards w (content r)) as [cards | e]; simpl.
      * rewrite for_each_cards_run; simpl.
        now rewrite <- app_assoc.
      * now rewrite app_nil_r.
    + now rewrite app_nil_r.
  - now rewrite app_nil_r.
Qed.

Lemma for_each_pages_run (city : text) (pages : list Z) (st : state) :
  for_each pages (scrape_page w city) st =
  (Ok tt, {| listings := listings st ++ flat_map (page_listings w city) pages;
             trace := trace st ++ flat_map (page_events w city) pages |}).
Proof.
  revert st; induction pages as [| p pages IH]; intros [ls tr];
    cbn [for_each flat_map listings trace].
  - unfold ret. now rewrite !app_nil_r.
  - unfold bind. rewrite scrape_page_run; cbn [listings trace].
    rewrite IH; cbn [listings trace]. now rewrite !app_assoc.
Qed.

Lemma scrape_listings_run (city : text) (max_pages : Z) (st : state) :
  let pages := range 1 (max_pages + 1) in
  scrape_listings w city max_pages st =
  (Ok (pd_DataFrame (flat_map (page_listings w city) pages)),
   {| listings := flat_map (page_listings w city) pages;
      trace := trace st ++ flat_map (page_events w city) pages |}).
Proof.
  intros pages. unfold scrape_listings, bind, reset_listings, get_listings, ret.
  rewrite for_each_pages_run; simpl. reflexivity.
Qed.

End Loops.

(* ================================================================= *)
(** * extract_price *)

Section PriceFacts.
Variable w : World.

Lemma extract_price_absent : extract_price w None = Ok None.
Proof. reflexivity. Qed.

Lemma extract_price_empty : extract_price w (Some []) = Ok None.
Proof. reflexivity. Qed.

(** A text with no character of the class has no match. *)
Lemma re_search_none (t : text) :
  Forall (fun c => price_char w c = false) t -> re_search w t = None.
Proof.
  induction 1 as [| c t Hc _ IH]; simpl.
  - reflexivity.
  - now rewrite Hc.
Qed.

Lemma extract_price_no_match (t : text) :
  Forall (fun c => price_char w c = false) t ->
  extract_price w (Some t) = Ok None.
Proof.
  intros H. unfold extract_price.
  destruct t as [| c t]; [reflexivity |].
  cbn [text_truthy negb]. now rewrite (re_search_none (c :: t) H).
Qed.

(** The price is the float of the matched group, whenever [float]
    accepts the group. *)
Lemma extract_price_match (t group : text) (f : float) :
  re_search w t = Some group ->
  float_of_str w group = Ok f ->
  extract_price w (Some t) = Ok (Some f).
Proof.
  intros Hs Hf. unfold extract_price.
  destruct t as [| c t]; [discriminate |].
  cbn [text_truthy negb]. rewrite Hs. cbn [bind_result]. unfold bind_result.
  now rewrite Hf.
Qed.

End PriceFacts.

(** C1 (the code departs from the claim). A price text whose first
    character of the class [[\d.]] is a full stop that no digit follows at
    once makes [extract_price] raise [ValueError]: the match is the lone
    full stop and [float] rejects it. So ["Rs. 50 Lakh"], which has the
    digit run [50], gives no 50.0, and ["Price on Request."], which has no
    digit, gives no absent value. *)
Theorem extract_price_lone_full_stop (w : World) :
  extract_price w (Some (txt "Rs. 50 Lakh")) = Raise (ValueError (txt "."))
  /\ normalize_as_specified w (Some (txt "Rs. 50 Lakh"))
     = Some (PyFloat.of_decimal 50 0)
  /\ extract_price w (Some (txt "Price on Request.")) = Raise (ValueError (txt "."))
  /\ normalize_as_specified w (Some (txt "Price on Request.")) = None.
Proof. repeat split; reflexivity. Qed.

(** Where the first run is a literal, the price is its float. *)
Example extract_price_85_5 (w : World) :
  extract_price w (Some (txt "85.5 Lakh"))
  = Ok (Some (S754_finite false 6016527627190272 (-46))).
Proof. vm_compute. reflexivity. Qed.

Example extract_price_on_request (w : World) :
  extract_price w (Some (txt "Price on Request")) = Ok None.
Proof. reflexivity. Qed.

(** Where the first run of the class is a digit run of the specified
    shape, the two readings agree. *)
Example extract_price_as_specified (w : World) :
  extract_price w (Some (txt "1.2 Cr"))
  = Ok (normalize_as_specified w (Some (txt "1.2 Cr"))).
Proof. vm_compute. reflexivity. Qed.

(** A second full stop in the run is rejected as well. *)
Example extract_price_two_points (w : World) :
  extract_price w (Some (txt "1.2.3 Cr")) = Raise (ValueError (txt "1.2.3")).
Proof. reflexivity. Qed.

(* ================================================================= *)
(** * What a run of scrape_listings keeps *)

Lemma rows_pd_DataFrame (l : list Listing) : rows (pd_DataFrame l) = l.
Proof. destruct l; reflexivity. Qed.

(** [range 1 (n + 1)] is 1, 2, ..., n. *)
Lemma range_from_1 (n : Z) :
  range 1 (n + 1) = map Z.of_nat (seq 1 (Z.to_nat n)).
Proof.
  unfold range. replace (n + 1 - 1)%Z with n by lia.
  rewrite <- seq_shift, map_map. apply map_ext. intros i. lia.
Qed.

Lemma range_from_1_length (n : Z) : List.length (range 1 (n + 1)) = Z.to_nat n.
Proof. rewrite range_from_1, length_map, length_seq. reflexivity. Qed.

Section Kept.
Variable w : World.

(** A card adds a listing only when the price is a float other than
    zero. *)
Lemma card_listings_priced (card : Card) :
  Forall (fun l => exists f, price l = Some f /\ PyFloat.is_zero f = false)
         (card_listings w card).
Proof.
  unfold card_listings.
  destruct (build_listing w card) as [l | e]; [| constructor].
  destruct (price l) as [f |] eqn:Hp; simpl; [| constructor].
  unfold PyFloat.truthy.
  destruct (PyFloat.is_zero f) eqn:Hz; simpl; constructor; [| constructor].
  exists f. split; assumption.
Qed.

Lemma page_listings_priced (city : text) (page : Z) :
  Forall (fun l => exists f, price l = Some f /\ PyFloat.is_zero f = false)
         (page_listings w city page).
Proof.
  unfold page_listings.
  destruct (page_cards w city page) as [cards |]; [| constructor].
  induction cards as [| c cards IH]; simpl.
  - constructor.
  - apply Forall_app. split; [apply card_listings_priced | exact IH].
Qed.

Lemma run_listings_priced (city : text) (pages : list Z) :
  Forall (fun l => exists f, price l = Some f /\ PyFloat.is_zero f = false)
         (flat_map (page_listings w city) pages).
Proof.
  induction pages as [| p pages IH]; simpl.
  - constructor.
  - apply Forall_app. split; [apply page_listings_priced | exact IH].
Qed.

(** A page whose fetch fails has no cards. *)
Lemma fetch_fails_no_cards (city : text) (page : Z) :
  fetch_fails w city page = true -> page_cards w city page = None.
Proof.
  unfold fetch_fails, page_cards.
  destruct (requests_get w (page_url city page)) as [r | e]; [| reflexivity].
  destruct (status_code r =? 200)%Z; [discriminate | reflexivity].
Qed.

Lemma process_card_skip (card : Card) (st : state) :
  card_listings w card = [] -> process_card w card st = (Ok tt, st).
Proof.
  intros H. rewrite process_card_run, H, app_nil_r. now destruct st.
Qed.

End Kept.

(** The end-to-end scenario: page 1 has three cards, the second without
    a price, and page 2 is not served; the run returns the two priced
    listings, in card order. *)
Example scenario_two_listings :
  exists df st',
    scrape_listings Sample.site Sample.mumbai 2 Sample.st0 = (Ok df, st')
    /\ map price (rows df) = [Some (Sample.sc 50 0); Some (Sample.sc 12 1)]
    /\ map title (rows df) = [Some (txt "2BHK Flat"); Some (txt "3BHK Villa")].
Proof. eexists. eexists. repeat split. Qed.

(** C2 (the code departs from the claim). When no listing was scraped,
    [pd.DataFrame(listings)] has no column, so [df['title']] raises
    [KeyError] and [analyze_keywords] returns no keyword collection; a run
    all of whose fetches fail ends in that frame. *)
Theorem analyze_keywords_empty_frame (w : World) :
  analyze_keywords w (pd_DataFrame []) = Raise (KeyError "title")
  /\ fst (scrape_listings Sample.down Sample.mumbai 2 Sample.st0)
     = Ok (pd_DataFrame [])
  /\ analyze_keywords Sample.down (pd_DataFrame []) = Raise (KeyError "title").
Proof. repeat split; reflexivity. Qed.

(** C4 (counterexample). One page is asked for and its fetch fails with
    status 503: the run makes its GET and no [sleep] follows it. *)
Lemma failed_fetch_is_not_followed_by_sleep :
  let st' := snd (scrape_listings Sample.down Sample.mumbai 1 Sample.st0) in
  fetch_fails Sample.down Sample.mumbai 1 = true
  /\ trace st' = [Get (page_url Sample.mumbai 1)]
  /\ filter is_sleep (trace st') = [].
Proof. repeat split; reflexivity. Qed.

(** C4 (as amended). The events of a run are those of its pages 1 to
    [max_pages] in order; a page gives its GET, followed by the pacing
    [sleep(2)] exactly when the fetch returned status 200 and the cards
    were read and processed; after a page whose fetch fails there is no
    delay. *)
Theorem sleep_follows_processed_pages_only
    (w : World) (city : text) (max_pages : Z) (st : state) :
  trace (snd (scrape_listings w city max_pages st))
  = trace st ++ flat_map (page_events w city) (range 1 (max_pages + 1))
  /\ (forall page,
        page_events w city page
        = Get (page_url city page)
          :: match page_cards w city page with
             | Some _ => [Sleep 2]
             | None => []
             end)
  /\ (forall page,
        fetch_fails w city page = true ->
        page_events w city page = [Get (page_url city page)]).
Proof.
  split; [| split].
  - rewrite scrape_listings_run. reflexivity.
  - reflexivity.
  - intros page H. unfold page_events.
    now rewrite (fetch_fails_no_cards w city page H).
Qed.

Lemma sleep_follows_processed_pages_only_witness :
  trace (snd (scrape_listings Sample.site Sample.mumbai 2 Sample.st0))
  = [Get (page_url Sample.mumbai 1); Sleep 2; Get (page_url Sample.mumbai 2)].
Proof.
  rewrite (proj1 (sleep_follows_processed_pages_only
                    Sample.site Sample.mumbai 2 Sample.st0)).
  reflexivity.
Defined.

(** C5. A listing whose price is absent is never appended: whatever the
    cards of a page, the listings their processing adds to [listings] all
    have a price, and the frame a run returns holds exactly the listings
    appended, all of them with a price. *)
Theorem priceless_listing_never_kept (w : World) :
  (forall (cards : list Card) (st : state),
      exists added,
        for_each cards (process_card w) st
        = (Ok tt, {| listings := listings st ++ added; trace := trace st |})
        /\ Forall (fun l => price l <> None) added)
  /\ (forall (city : text) (max_pages : Z) (st : state),
      exists df st',
        scrape_listings w city max_pages st = (Ok df, st')
        /\ rows df = listings st'
        /\ Forall (fun l => price l <> None) (rows df)).
Proof.
  assert (Hweak : forall ls : list Listing,
             Forall (fun l => exists f, price l = Some f
                                         /\ PyFloat.is_zero f = false) ls ->
             Forall (fun l => price l <> None) ls).
  { intros ls H. eapply Forall_impl; [| exact H].
    intros l (f & Hf & _). congruence. }
  split.
  - intros cards st. exists (flat_map (card_listings w) cards). split.
    + apply for_each_cards_run.
    + apply Hweak. induction cards as [| c cards IH]; simpl.
      * constructor.
      * apply Forall_app. split; [apply card_listings_priced | exact IH].
  - intros city max_pages st. eexists. eexists. split; [| split].
    + apply scrape_listings_run.
    + apply rows_pd_DataFrame.
    + rewrite rows_pd_DataFrame. apply Hweak, run_listings_priced.
Qed.



(** C9. A card whose price text parses to a zero is not appended although
    its price is present, since the test is the truthiness of the price;
    so every listing of the frame a run returns has a price other than
    zero. *)
Theorem zero_price_card_dropped (w : World) :
  (forall (card : Card) (f : float) (st : state),
      extract_price w (stripped_text (find_price card)) = Ok (Some f) ->
      PyFloat.is_zero f = true ->
      process_card w card st = (Ok tt, st))
  /\ (forall (city : text) (max_pages : Z) (st : state),
      exists df st',
        scrape_listings w city max_pages st = (Ok df, st')
        /\ Forall (fun l => exists f, price l = Some f
                                      /\ PyFloat.is_zero f = false) (rows df)).
Proof.
  split.
  - intros card f st Hp Hz. apply process_card_skip.
    unfold card_listings, build_listing. rewrite Hp. cbn [bind_result].
    destruct (url_value card) as [u | e]; cbn [bind_result]; [| reflexivity].
    destruct (analyze_sentiment w (stripped_text (find_title card)))
      as [s | e]; cbn [bind_result]; [| reflexivity].
    cbn [price price_truthy]. unfold PyFloat.truthy. now rewrite Hz.
  - intros city max_pages st. eexists. eexists. split.
    + apply scrape_listings_run.
    + rewrite rows_pd_DataFrame. apply run_listings_priced.
Qed.

Lemma zero_price_card_dropped_witness :
  extract_price Sample.site (stripped_text (find_price Sample.free))
  = Ok (Some (S754_zero false))
  /\ process_card Sample.site Sample.free Sample.st0 = (Ok tt, Sample.st0).
Proof.
  split.
  - reflexivity.
  - apply (proj1 (zero_price_card_dropped Sample.site)
             Sample.free (S754_zero false) Sample.st0); reflexivity.
Defined.

(* ================================================================= *)
(** * The url and the sentiment of a listing *)




(** C10. A card whose title block is present and blank after [strip]
    yields a listing whose title is the empty string and whose sentiment
    is absent: [analyze_sentiment] tests the truthiness of the text and
    does not call the scorer on the empty string. Whatever the card loop
    appends for such a card has that title and no sentiment; and the card
    is appended, with these two fields, as soon as its price is truthy
    and its url is computed, whatever the scorer would do. *)
Theorem blank_title_no_sentiment
    (w : World) (card : Card) (t : Tag) (st : state) :
  find_title card = Some t ->
  strip (tag_text t) = [] ->
  exists added,
    process_card w card st
    = (Ok tt, {| listings := listings st ++ added; trace := trace st |})
    /\ Forall (fun l => title l = Some [] /\ sentiment l = None) added
    /\ (forall p u,
          extract_price w (stripped_text (find_price card)) = Ok p ->
          price_truthy p = true ->
          url_value card = Ok u ->
          added = [{| price := p; title := Some [];
                      area := stripped_text (find_area card);
                      url := u; sentiment := None |}])
    /\ analyze_sentiment w (stripped_text (find_title card)) = Ok None.
Proof.
  intros Ht Hs.
  assert (Htitle : stripped_text (find_title card) = Some []).
  { rewrite Ht. cbn [stripped_text]. now rewrite Hs. }
  exists (card_listings w card).
  split; [apply process_card_run |].
  split; [| split].
  - unfold card_listings, build_listing. rewrite Htitle.
    destruct (extract_price w (stripped_text (find_price card))) as [p | e];
      cbn [bind_result]; [| constructor].
    destruct (url_value card) as [u | e]; cbn [bind_result]; [| constructor].
    cbn [analyze_sentiment text_truthy bind_result price].
    destruct (price_truthy p); repeat constructor.
  - intros p u Hp Htruthy Hu. unfold card_listings, build_listing.
    rewrite Hp, Hu, Htitle.
    cbn [bind_result analyze_sentiment text_truthy price].
    now rewrite Htruthy.
  - now rewrite Htitle.
Qed.

(** The scorer of [Sample.no_scorer] raises on every text, and the card
    with the blank title is appended all the same. *)
Lemma blank_title_no_sentiment_witness :
  polarity Sample.no_scorer [] = Raise (LibraryError 0)
  /\ process_card Sample.no_scorer Sample.untitled Sample.st0
     = (Ok tt,
        {| listings := [{| price := Some (Sample.sc 75 0); title := Some [];
                           area := None; url := None; sentiment := None |}];
           trace := [] |}).
Proof.
  split; [reflexivity |].
  destruct (blank_title_no_sentiment
              Sample.no_scorer Sample.untitled (Sample.div "   ") Sample.st0
              eq_refl eq_refl) as (added & Hrun & _ & Hadded & _).
  rewrite Hrun.
  rewrite (Hadded (Some (Sample.sc 75 0)) None eq_refl eq_refl eq_refl).
  reflexivity.
Defined.

(* ================================================================= *)
(** * Equality and order of rows *)

Lemma text_eqb_eq (a b : text) : text_eqb a b = true <-> a = b.
Proof.
  revert b; induction a as [| x a IH]; intros [| y b]; simpl;
    try (split; [discriminate | discriminate]); [tauto |].
  rewrite andb_true_iff, N.eqb_eq, IH.
  split; [intros [-> ->]; reflexivity | intros H; injection H; auto].
Qed.

Lemma text_eqb_refl (a : text) : text_eqb a a = true.
Proof. now apply text_eqb_eq. Qed.

Lemma text_eqb_sym (a b : text) : text_eqb a b = text_eqb b a.
Proof.
  destruct (text_eqb a b) eqn:Hab, (text_eqb b a) eqn:Hba; try reflexivity.
  - apply text_eqb_eq in Hab. subst. now rewrite text_eqb_refl in Hba.
  - apply text_eqb_eq in Hba. subst. now rewrite text_eqb_refl in Hab.
Qed.

(** Comparing the other way round gives the opposite answer. *)
Lemma SFcompare_antisym (x y : float) :
  SFcompare y x = option_map CompOpp (SFcompare x y).
Proof.
  destruct x as [sx | sx | | sx mx ex], y as [sy | sy | | sy my ey];
    try destruct sx; try destruct sy; try reflexivity;
    cbn [SFcompare option_map]; f_equal;
    rewrite (Z.compare_antisym ex ey);
    destruct (ex ?= ey)%Z; cbn [CompOpp]; try reflexivity;
    pose proof (Pos.compare_cont_antisym mx my Eq) as H;
    cbn [CompOpp] in H; rewrite <- H; reflexivity.
Qed.

Lemma SFcompare_refl (x : float) :
  PyFloat.is_nan x = false -> SFcompare x x = Some Eq.
Proof.
  destruct x as [s | s | | s m e]; try destruct s; try reflexivity;
    try discriminate; intros _; cbn [SFcompare];
    rewrite Z.compare_refl, Pos.compare_cont_refl; reflexivity.
Qed.

Lemma score_same_refl (x : float) : score_same x x = true.
Proof.
  unfold score_same, PyFloat.eqb, SFeqb.
  destruct (PyFloat.is_nan x) eqn:Hn.
  - now rewrite orb_true_r.
  - now rewrite (SFcompare_refl x Hn).
Qed.

Lemma score_same_sym (x y : float) : score_same x y = score_same y x.
Proof.
  unfold score_same, PyFloat.eqb, SFeqb.
  rewrite (SFcompare_antisym x y), (andb_comm (PyFloat.is_nan y)).
  destruct (SFcompare x y) as [[| |] |]; reflexivity.
Qed.

Lemma row_same_refl (r : KeywordRow) : row_same r r = true.
Proof. unfold row_same. now rewrite score_same_refl, text_eqb_refl. Qed.

Lemma row_same_sym (a b : KeywordRow) : row_same a b = row_same b a.
Proof.
  unfold row_same.
  now rewrite score_same_sym, text_eqb_sym.
Qed.

(** Only NaN is unordered. *)
Lemma SFcompare_defined (x y : float) :
  PyFloat.is_nan x = false -> PyFloat.is_nan y = false ->
  exists c, SFcompare x y = Some c.
Proof.
  destruct x as [sx | sx | | sx mx ex], y as [sy | sy | | sy my ey];
    try discriminate; intros _ _; cbn [SFcompare]; eexists; reflexivity.
Qed.

(** Of two rows one may stand before the other. *)
Lemma score_desc_total (a b : KeywordRow) :
  score_desc a b = false -> score_desc b a = true.
Proof.
  unfold score_desc, PyFloat.leb, SFleb.
  rewrite (SFcompare_antisym (score b) (score a)).
  destruct (PyFloat.is_nan (score a)) eqn:Ha; [reflexivity |].
  destruct (PyFloat.is_nan (score b)) eqn:Hb; [discriminate |].
  destruct (SFcompare_defined _ _ Hb Ha) as [c ->].
  destruct c; cbn; intros H; try discriminate H; reflexivity.
Qed.

(* ================================================================= *)
(** * drop_duplicates, sort_values and head *)

Lemma existsb_row_same_false (r : KeywordRow) (seen : list KeywordRow) :
  existsb (row_same r) seen = false ->
  Forall (fun s => row_same s r = false) seen.
Proof.
  induction seen as [| s seen IH]; simpl; intros H; constructor.
  - apply orb_false_elim in H. now rewrite row_same_sym.
  - apply IH. now apply orb_false_elim in H.
Qed.

Lemma drop_duplicates_from_spec (l seen : list KeywordRow) :
  Forall (fun r => Forall (fun s => row_same s r = false) seen)
         (drop_duplicates_from seen l)
  /\ distinct_rows (drop_duplicates_from seen l).
Proof.
  revert seen; induction l as [| r l IH]; intros seen; simpl.
  - split; constructor.
  - destruct (existsb (row_same r) seen) eqn:Hr.
    + apply IH.
    + destruct (IH (r :: seen)) as [Hseen Hd]. split.
      * constructor.
        -- now apply existsb_row_same_false.
        -- eapply Forall_impl; [| exact Hseen].
           intros x Hx. now inversion Hx.
      * constructor; [| exact Hd].
        eapply Forall_impl; [| exact Hseen].
        intros x Hx. now inversion Hx.
Qed.

Lemma drop_duplicates_distinct (l : list KeywordRow) :
  distinct_rows (drop_duplicates l).
Proof. apply drop_duplicates_from_spec. Qed.

Lemma drop_duplicates_from_incl (l seen : list KeywordRow) (r : KeywordRow) :
  In r (drop_duplicates_from seen l) -> In r l.
Proof.
  revert seen; induction l as [| x l IH]; intros seen; simpl; [tauto |].
  destruct (existsb (row_same x) seen).
  - intros H. right. eapply IH, H.
  - intros [-> | H]; [now left | right; eapply IH, H].
Qed.

(** Every row has its like among the rows kept. *)
Lemma drop_duplicates_from_covers (l seen : list KeywordRow) (r : KeywordRow) :
  In r l ->
  exists s, (In s seen \/ In s (drop_duplicates_from seen l))
            /\ row_same r s = true.
Proof.
  revert seen; induction l as [| x l IH]; intros seen; simpl; [tauto |].
  intros [-> | Hr].
  - destruct (existsb (row_same r) seen) eqn:Hx.
    + apply existsb_exists in Hx. destruct Hx as (s & Hs & Hrs).
      exists s. auto.
    + exists r. split; [right; now left | apply row_same_refl].
  - destruct (existsb (row_same x) seen) eqn:Hx.
    + apply IH, Hr.
    + destruct (IH (x :: seen) Hr) as (s & [[-> | Hs] | Hs] & Hrs);
        exists s; simpl; auto.
Qed.

Lemma drop_duplicates_covers (l : list KeywordRow) (r : KeywordRow) :
  In r l -> exists s, In s (drop_duplicates l) /\ row_same r s = true.
Proof.
  intros H. destruct (drop_duplicates_from_covers l [] r H)
    as (s & [[] | Hs] & Hrs).
  exists s. auto.
Qed.

Lemma distinct_rows_perm (l l' : list KeywordRow) :
  Permutation l l' -> distinct_rows l -> distinct_rows l'.
Proof.
  unfold distinct_rows. induction 1 as [| x l l' Hp IH | x y l | l l' l'' _ IH1 _ IH2].
  - auto.
  - intros H. inversion H as [| ? ? Hx Hl]; subst. constructor.
    + eapply Permutation_Forall; eassumption.
    + now apply IH.
  - intros H. inversion H as [| ? ? Hy Hxl]; subst.
    inversion Hxl as [| ? ? Hx Hl]; subst.
    inversion Hy as [| ? ? Hyx Hyl]; subst.
    constructor; [| constructor; assumption].
    constructor; [| assumption]. now rewrite row_same_sym.
  - auto.
Qed.

Lemma In_firstn {A} (n : nat) (l : list A) (x : A) :
  In x (firstn n l) -> In x l.
Proof.
  revert l; induction n as [| n IH]; intros [| y l]; simpl; try tauto.
  intros [-> | H]; [now left | right; now apply IH].
Qed.

Lemma distinct_rows_firstn (n : nat) (l : list KeywordRow) :
  distinct_rows l -> distinct_rows (firstn n l).
Proof.
  unfold distinct_rows. intros H. revert n.
  induction H as [| x l Hx Hl IH]; intros [| n]; simpl; try constructor.
  - rewrite Forall_forall in *. intros y Hy. apply Hx.
    eapply In_firstn, Hy.
  - apply IH.
Qed.

Lemma Sorted_firstn {A} (R : A -> A -> Prop) (n : nat) (l : list A) :
  Sorted R l -> Sorted R (firstn n l).
Proof.
  intros H. revert n. induction H as [| x l Hl IH Hx]; intros [| n]; simpl;
    try constructor.
  - apply IH.
  - destruct Hx as [| y l Hxy]; destruct n; simpl; constructor. exact Hxy.
Qed.

(** Rows that are pairwise distinct, coming from a ranker that gives a
    phrase one score, have pairwise different keywords. *)
Lemma distinct_rows_keywords (l : list KeywordRow) :
  distinct_rows l ->
  (forall a b, In a l -> In b l -> keyword a = keyword b ->
               score_same (score a) (score b) = true) ->
  NoDup (map keyword l).
Proof.
  unfold distinct_rows. induction 1 as [| x l Hx Hl IH]; intros Hf; simpl.
  - constructor.
  - constructor.
    + intros Hin. apply in_map_iff in Hin. destruct Hin as (y & Hk & Hy).
      rewrite Forall_forall in Hx. specialize (Hx y Hy).
      unfold row_same in Hx.
      rewrite (Hf x y (or_introl eq_refl) (or_intror Hy) (eq_sym Hk)) in Hx.
      rewrite <- Hk, text_eqb_refl in Hx. discriminate.
    + apply IH. intros a b Ha Hb. apply Hf; now right.
Qed.

(** The sort by insertion keeps the contract of [sort_values]. *)
Lemma insert_desc_perm (r : KeywordRow) (l : list KeywordRow) :
  Permutation (insert_desc r l) (r :: l).
Proof.
  induction l as [| x l IH]; simpl.
  - apply Permutation_refl.
  - destruct (score_desc x r).
    + eapply perm_trans; [apply perm_skip, IH | apply perm_swap].
    + apply Permutation_refl.
Qed.

Lemma insertion_sort_desc_perm (l : list KeywordRow) :
  Permutation (insertion_sort_desc l) l.
Proof.
  induction l as [| r l IH]; simpl.
  - constructor.
  - eapply perm_trans; [apply insert_desc_perm | now apply perm_skip].
Qed.

Lemma insert_desc_sorted (r : KeywordRow) (l : list KeywordRow) :
  Sorted (fun a b => score_desc a b = true) l ->
  Sorted (fun a b => score_desc a b = true) (insert_desc r l).
Proof.
  induction 1 as [| x l Hl IH Hx]; simpl.
  - repeat constructor.
  - destruct (score_desc x r) eqn:Hxr.
    + constructor; [exact IH |].
      destruct Hx as [| y l Hxy]; simpl.
      * constructor. exact Hxr.
      * destruct (score_desc y r); constructor; assumption.
    + constructor.
      * constructor; assumption.
      * constructor. now apply score_desc_total.
Qed.

Lemma insertion_sort_desc_sorted (l : list KeywordRow) :
  Sorted (fun a b => score_desc a b = true) (insertion_sort_desc l).
Proof.
  induction l as [| r l IH]; simpl.
  - constructor.
  - now apply insert_desc_sorted.
Qed.

Lemma sample_sort_contract get cards phrases :
  sort_contract (Sample.world get cards phrases).
Proof.
  split; intros l; [apply insertion_sort_desc_perm | apply insertion_sort_desc_sorted].
Qed.

Lemma existsb_title_columns (df : DataFrame) :
  In "title"%string (columns df) ->
  existsb (String.eqb "title") (columns df) = true.
Proof.
  intros H. apply existsb_exists. exists "title"%string.
  split; [exact H | reflexivity].
Qed.

Lemma Sorted_weaken {A} (R R' : A -> A -> Prop) (l : list A) :
  (forall a b, In a l -> In b l -> R a b -> R' a b) ->
  Sorted R l -> Sorted R' l.
Proof.
  intros Himp H. induction H as [| x l Hl IH Hx].
  - constructor.
  - constructor.
    + apply IH. intros a b Ha Hb. apply Himp; now right.
    + destruct Hx as [| y l Hxy]; constructor.
      apply Himp; simpl; auto.
Qed.

(* ================================================================= *)
(** * analyze_keywords *)

Section Keywords.
Variable w : World.
Hypothesis sort_ok : sort_contract w.

Variable df : DataFrame.
Hypothesis has_title : In "title"%string (columns df).

Variable keywords : list (float * text).
Hypothesis ranked :
  ranked_phrases_with_scores w (join (txt " ") (dropna (map title (rows df))))
  = Ok keywords.

(** With a title column and an answer of the ranker, the method
    returns the first 20 of the sorted, deduplicated rows. *)
Lemma analyze_keywords_run :
  analyze_keywords w df
  = Ok (head 20 (sort_values_desc w (drop_duplicates (keyword_rows keywords)))).
Proof.
  unfold analyze_keywords, df_getitem_title.
  rewrite (existsb_title_columns df has_title). cbn [bind_result].
  rewrite ranked. reflexivity.
Qed.

Lemma sorted_rows_distinct :
  distinct_rows (sort_values_desc w (drop_duplicates (keyword_rows keywords))).
Proof.
  eapply distinct_rows_perm.
  - apply Permutation_sym, (proj1 sort_ok).
  - apply drop_duplicates_distinct.
Qed.

Lemma top_keywords_incl (r : KeywordRow) :
  In r (head 20 (sort_values_desc w (drop_duplicates (keyword_rows keywords)))) ->
  In r (keyword_rows keywords).
Proof.
  intros H. apply In_firstn in H.
  apply (Permutation_in _ (proj1 sort_ok _)) in H.
  eapply drop_duplicates_from_incl, H.
Qed.

End Keywords.

(** C3 (counterexample). The ranker gives the phrase [sea view] under the
    scores 2.0 and 1.0: the two rows are no duplicates of one another, and
    both are in the output. *)
Lemma one_phrase_two_scores_both_kept :
  analyze_keywords (Sample.world Sample.all_fail [] Sample.twice) Sample.one_row
  = Ok [{| score := Sample.sc 2 0; keyword := txt "sea view" |};
        {| score := Sample.sc 1 0; keyword := txt "sea view" |}]
  /\ ~ NoDup (map keyword
                [{| score := Sample.sc 2 0; keyword := txt "sea view" |};
                 {| score := Sample.sc 1 0; keyword := txt "sea view" |}]).
Proof.
  split.
  - vm_compute. reflexivity.
  - intros H. inversion H as [| ? ? Hnotin _]; subst.
    apply Hnotin. now left.
Qed.

(** C3 (as amended). Rows are deduplicated by the whole row, score and
    phrase: for a frame with a title column, the output has no two entries
    that agree in score and in keyword. When the ranker gives equal
    phrases equal scores, no two entries have the same keyword. *)
Theorem top_keywords_distinct
    (w : World) (df : DataFrame) (keywords : list (float * text)) :
  sort_contract w ->
  In "title"%string (columns df) ->
  ranked_phrases_with_scores w (join (txt " ") (dropna (map title (rows df))))
  = Ok keywords ->
  exists out,
    analyze_keywords w df = Ok out
    /\ distinct_rows out
    /\ ((forall a b, In a keywords -> In b keywords -> snd a = snd b ->
                     score_same (fst a) (fst b) = true) ->
        NoDup (map keyword out)).
Proof.
  intros Hsort Htitle Hranked. eexists. split; [| split].
  - apply (analyze_keywords_run w df Htitle keywords Hranked).
  - apply distinct_rows_firstn, sorted_rows_distinct, Hsort.
  - intros Hfun. apply distinct_rows_keywords.
    + apply distinct_rows_firstn, sorted_rows_distinct, Hsort.
    + intros a b Ha Hb Hk.
      apply (top_keywords_incl w Hsort) in Ha, Hb.
      unfold keyword_rows in Ha, Hb.
      apply in_map_iff in Ha, Hb.
      destruct Ha as (a' & <- & Ha'), Hb as (b' & <- & Hb').
      cbn [score keyword] in *. now apply Hfun.
Qed.

Lemma top_keywords_distinct_witness :
  exists out,
    analyze_keywords (Sample.world Sample.all_fail [] Sample.repeated)
                     Sample.one_row = Ok out
    /\ distinct_rows out
    /\ ((forall a b, In a Sample.repeated -> In b Sample.repeated ->
                     snd a = snd b -> score_same (fst a) (fst b) = true) ->
        NoDup (map keyword out)).
Proof.
  apply (top_keywords_distinct
           (Sample.world Sample.all_fail [] Sample.repeated)
           Sample.one_row Sample.repeated).
  - apply sample_sort_contract.
  - simpl. auto.
  - reflexivity.
Defined.

(** C8 (counterexample). The ranker's answer [Sample.crowded] has two
    phrases, [sea view] under 21 scores and [garden] under a score below
    them all: the 20 rows of the output are rows of [sea view], and
    [garden] is not returned. *)
Lemma second_phrase_cut_off :
  exists out,
    analyze_keywords (Sample.world Sample.all_fail [] Sample.crowded)
                     Sample.one_row = Ok out
    /\ forallb (fun p => text_eqb p (txt "sea view") || text_eqb p (txt "garden"))
               (map snd Sample.crowded) = true
    /\ existsb (text_eqb (txt "garden")) (map snd Sample.crowded) = true
    /\ existsb (text_eqb (txt "garden")) (map keyword out) = false.
Proof.
  eexists. split; [vm_compute; reflexivity |].
  repeat split; vm_compute; reflexivity.
Qed.

(** C8 (as amended). For a frame with a title column, the output has at
    most 20 entries and its scores never go up from one entry to the next
    (rows with a NaN score, if any, come last); when there are fewer than
    20 distinct rows (score and phrase), the output is all of them, and
    every row of the ranker has its like in it. *)
Theorem top_keywords_sorted
    (w : World) (df : DataFrame) (keywords : list (float * text)) :
  sort_contract w ->
  In "title"%string (columns df) ->
  ranked_phrases_with_scores w (join (txt " ") (dropna (map title (rows df))))
  = Ok keywords ->
  exists out,
    analyze_keywords w df = Ok out
    /\ List.length out <= 20
    /\ Sorted (fun a b => score_desc a b = true) out
    /\ (Forall (fun sk => PyFloat.is_nan (fst sk) = false) keywords ->
        Sorted (fun a b => PyFloat.leb (score b) (score a) = true) out)
    /\ (List.length (drop_duplicates (keyword_rows keywords)) < 20 ->
        Permutation out (drop_duplicates (keyword_rows keywords))
        /\ forall r, In r (keyword_rows keywords) ->
                     exists s, In s out /\ row_same r s = true).
Proof.
  intros Hsort Htitle Hranked. eexists.
  split; [apply (analyze_keywords_run w df Htitle keywords Hranked) |].
  assert (Hsorted : Sorted (fun a b => score_desc a b = true)
            (head 20 (sort_values_desc w
                        (drop_duplicates (keyword_rows keywords))))).
  { apply Sorted_firstn, (proj2 Hsort). }
  split; [apply firstn_le_length |].
  split; [exact Hsorted |].
  split.
  - intros Hnan. eapply Sorted_weaken; [| exact Hsorted].
    intros a b Ha Hb. unfold score_desc.
    apply (top_keywords_incl w Hsort) in Ha, Hb.
    unfold keyword_rows in Ha, Hb. apply in_map_iff in Ha, Hb.
    destruct Ha as (a' & <- & Ha'), Hb as (b' & <- & Hb').
    rewrite Forall_forall in Hnan. cbn [score].
    rewrite (Hnan a' Ha'), (Hnan b' Hb'). cbn [negb orb andb]. auto.
  - intros Hfew.
    assert (Hall : head 20 (sort_values_desc w
                              (drop_duplicates (keyword_rows keywords)))
                   = sort_values_desc w (drop_duplicates (keyword_rows keywords))).
    { apply firstn_all2.
      rewrite (Permutation_length (proj1 Hsort _)). lia. }
    rewrite Hall. split; [apply (proj1 Hsort) |].
    intros r Hr. destruct (drop_duplicates_covers _ r Hr) as (s & Hs & Hrs).
    exists s. split; [| exact Hrs].
    eapply Permutation_in; [apply Permutation_sym, (proj1 Hsort) | exact Hs].
Qed.

Lemma top_keywords_sorted_witness :
  exists out,
    analyze_keywords (Sample.world Sample.all_fail [] Sample.repeated)
                     Sample.one_row = Ok out
    /\ List.length out <= 20
    /\ Sorted (fun a b => score_desc a b = true) out
    /\ (Forall (fun sk => PyFloat.is_nan (fst sk) = false) Sample.repeated ->
        Sorted (fun a b => PyFloat.leb (score b) (score a) = true) out)
    /\ (List.length (drop_duplicates (keyword_rows Sample.repeated)) < 20 ->
        Permutation out (drop_duplicates (keyword_rows Sample.repeated))
        /\ forall r, In r (keyword_rows Sample.repeated) ->
                     exists s, In s out /\ row_same r s = true).
Proof.
  apply (top_keywords_sorted
           (Sample.world Sample.all_fail [] Sample.repeated)
           Sample.one_row Sample.repeated).
  - apply sample_sort_contract.
  - simpl. auto.
  - reflexivity.
Defined.

(* ================================================================= *)
(** * More on extract_price *)

Section PriceRuns.
Variable w : World.

(** A code point is no digit and a full stop at once. *)
Lemma full_stop_not_decimal : Unicode.isdecimal (nd_table w) Unicode.full_stop = false.
Proof. reflexivity. Qed.

Lemma take_run_class (t : text) : Forall (fun c => price_char w c = true) (take_run w t).
Proof.
  induction t as [| c t IH]; simpl; [constructor |].
  destruct (price_char w c) eqn:Hc; constructor; assumption.
Qed.

(** The group of a match is not empty and lies within the class. *)
Lemma re_search_class (t group : text) :
  re_search w t = Some group ->
  group <> [] /\ Forall (fun c => price_char w c = true) group.
Proof.
  induction t as [| c t IH]; simpl; [discriminate |].
  destruct (price_char w c) eqn:Hc; [| exact IH].
  intros H. injection H as <-. split; [discriminate |].
  constructor; [exact Hc | apply take_run_class].
Qed.

Lemma take_run_app (group after : text) :
  Forall (fun c => price_char w c = true) group ->
  match after with [] => True | c :: _ => price_char w c = false end ->
  take_run w (group ++ after) = group.
Proof.
  intros Hg Ha. induction Hg as [| c g Hc _ IH]; simpl.
  - destruct after as [| a after]; [reflexivity |]. simpl. now rewrite Ha.
  - now rewrite Hc, IH.
Qed.

(** The match is the leftmost run of the class, taken whole. *)
Lemma re_search_app (before group after : text) :
  Forall (fun c => price_char w c = false) before ->
  group <> [] ->
  Forall (fun c => price_char w c = true) group ->
  match after with [] => True | c :: _ => price_char w c = false end ->
  re_search w (before ++ group ++ after) = Some group.
Proof.
  intros Hb Hne Hg Ha. induction Hb as [| b before Hb _ IH]; simpl.
  - destruct Hg as [| c g Hc Hg]; [contradiction |]. simpl.
    rewrite Hc. f_equal. f_equal. now apply take_run_app.
  - now rewrite Hb.
Qed.

(** How many full stops and how many digits a text has. *)
Lemma scan_literal_class (t : text) :
  Forall (fun c => price_char w c = true) t ->
  forall (dot : bool) (n : N) (k digits : nat),
    let stops := List.length (filter (N.eqb Unicode.full_stop) t) in
    let ds := List.length (filter (Unicode.isdecimal (nd_table w)) t) in
    if (stops + (if dot then 1 else 0) <=? 1)%nat
    then exists n' k', scan_literal w t dot n k digits = Some (n', k', digits + ds)
    else scan_literal w t dot n k digits = None.
Proof.
  induction 1 as [| c t Hc _ IH]; intros dot n k digits; cbn zeta.
  - simpl. destruct dot; simpl; rewrite Nat.add_0_r; eauto.
  - cbn [scan_literal filter]. unfold price_char, Unicode.isdecimal in Hc.
    unfold Unicode.isdecimal at 1.
    destruct (Unicode.digit_value (nd_table w) c) as [d |] eqn:Hd.
    + assert (Hs : (Unicode.full_stop =? c)%N = false).
      { destruct (N.eqb_spec Unicode.full_stop c) as [<- |]; [| reflexivity].
        discriminate Hd. }
      rewrite Hs. cbn [List.length].
      specialize (IH dot (10 * n + d)%N (if dot then S k else k) (S digits)).
      cbn zeta in IH. rewrite Nat.add_succ_r. exact IH.
    + simpl in Hc. apply N.eqb_eq in Hc. subst c.
      rewrite N.eqb_refl. cbn [List.length andb].
      destruct dot; cbn [negb].
      * replace (S _ + 1 <=? 1)%nat with false
          by (symmetry; apply Nat.leb_gt; lia). reflexivity.
      * specialize (IH true n k digits). cbn zeta in IH.
        rewrite Nat.add_0_r.
        replace (S (List.length (filter (N.eqb Unicode.full_stop) t)) <=? 1)%nat
          with (List.length (filter (N.eqb Unicode.full_stop) t) + 1 <=? 1)%nat
          by (f_equal; lia).
        exact IH.
Qed.

(** [float] accepts a run of the class exactly when it has at most one
    full stop and at least one digit. *)
Lemma float_of_str_class (group : text) :
  Forall (fun c => price_char w c = true) group ->
  let stops := List.length (filter (N.eqb Unicode.full_stop) group) in
  let ds := List.length (filter (Unicode.isdecimal (nd_table w)) group) in
  if ((stops <=? 1) && (1 <=? ds))%nat
  then exists n k, float_of_str w group = Ok (PyFloat.of_decimal n k)
  else float_of_str w group = Raise (ValueError group).
Proof.
  intros Hg stops ds. unfold float_of_str.
  pose proof (scan_literal_class group Hg false 0%N 0 0) as H.
  cbn zeta in H. rewrite Nat.add_0_r in H. fold stops ds in H.
  destruct (stops <=? 1)%nat; cbn [andb].
  - destruct H as (n' & k' & ->). cbn [Nat.add].
    destruct ds as [| d]; cbn [Nat.leb]; eauto.
  - now rewrite H.
Qed.

End PriceRuns.

(** X1. [extract_price] raises exactly when the first run of digits and
    full stops in the text has two or more full stops or no digit; the
    exception is then the [ValueError] of [float] on that run. *)
Theorem extract_price_raises_iff (w : World) (t : text) (e : exn) :
  extract_price w (Some t) = Raise e
  <-> exists group,
        re_search w t = Some group
        /\ e = ValueError group
        /\ (2 <= List.length (filter (N.eqb Unicode.full_stop) group)
            \/ List.length (filter (Unicode.isdecimal (nd_table w)) group) = 0).
Proof.
  unfold extract_price.
  destruct t as [| c t]; cbn [text_truthy negb].
  - split; [discriminate | intros (g & H & _); discriminate H].
  - destruct (re_search w (c :: t)) as [group |] eqn:Hs.
    + destruct (re_search_class w _ _ Hs) as [_ Hg].
      pose proof (float_of_str_class w group Hg) as Hf. cbn zeta in Hf.
      destruct (List.length (filter (N.eqb Unicode.full_stop) group) <=? 1)%nat
        eqn:Hstops; cbn [andb] in Hf.
      * destruct (1 <=? List.length
                         (filter (Unicode.isdecimal (nd_table w)) group))%nat
          eqn:Hds.
        -- destruct Hf as (n & k & ->). cbn [bind_result].
           apply Nat.leb_le in Hstops, Hds.
           split; [discriminate |].
           intros (g & Hg' & _ & Hbad). injection Hg' as <-. lia.
        -- rewrite Hf. cbn [bind_result]. apply Nat.leb_gt in Hds.
           split.
           ++ intros H. injection H as <-. exists group.
              repeat split. right. lia.
           ++ intros (g & Hg' & -> & _). now injection Hg' as <-.
      * rewrite Hf. cbn [bind_result]. apply Nat.leb_gt in Hstops. split.
        -- intros H. injection H as <-. exists group.
           repeat split. left. lia.
        -- intros (g & Hg' & -> & _). now injection Hg' as <-.
    + split; [discriminate | intros (g & H & _); discriminate H].
Qed.

(** X2. The price depends on the first run alone: what stands before the
    first character of the class, and what follows the run, is ignored
    (currency signs before, unit words after). *)
Theorem extract_price_first_run (w : World) (before group after : text) :
  Forall (fun c => price_char w c = false) before ->
  group <> [] ->
  Forall (fun c => price_char w c = true) group ->
  match after with [] => True | c :: _ => price_char w c = false end ->
  extract_price w (Some (before ++ group ++ after))
  = extract_price w (Some group).
Proof.
  intros Hb Hne Hg Ha. unfold extract_price.
  rewrite (re_search_app w before group after Hb Hne Hg Ha).
  pose proof (re_search_app w [] group [] (Forall_nil _) Hne Hg I) as H0.
  cbn [app] in H0. rewrite app_nil_r in H0. rewrite H0.
  destruct group as [| c g]; [contradiction |].
  destruct before; reflexivity.
Qed.

Lemma extract_price_first_run_witness :
  extract_price Sample.site (Some (txt "Rs " ++ txt "85.5" ++ txt " Lakh"))
  = extract_price Sample.site (Some (txt "85.5")).
Proof.
  apply (extract_price_first_run Sample.site (txt "Rs ") (txt "85.5") (txt " Lakh")).
  - repeat constructor.
  - discriminate.
  - repeat constructor.
  - reflexivity.
Defined.

(* ================================================================= *)
(** * The sign of a price *)

Lemma shr_1_nonneg (mrs : shr_record) :
  (0 <= shr_m mrs)%Z -> (0 <= shr_m (shr_1 mrs))%Z.
Proof.
  destruct mrs as [m r s]. cbn [shr_m].
  destruct m as [| p | p]; [| destruct p | ]; simpl; lia.
Qed.

Lemma iter_pos_invariant {A} (P : A -> Prop) (f : A -> A) :
  (forall x, P x -> P (f x)) ->
  forall (n : positive) (x : A), P x -> P (iter_pos f n x).
Proof.
  intros Hf. induction n as [n IH | n IH |]; intros x Hx; simpl; auto.
Qed.

Lemma shr_nonneg (mrs : shr_record) (e n : Z) :
  (0 <= shr_m mrs)%Z -> (0 <= shr_m (fst (shr mrs e n)))%Z.
Proof.
  intros H. destruct n as [| p | p]; simpl; try exact H.
  apply (iter_pos_invariant (fun x => (0 <= shr_m x)%Z)); [| exact H].
  apply shr_1_nonneg.
Qed.

Lemma shr_fexp_nonneg (m e : Z) (l : location) :
  (0 <= m)%Z ->
  (0 <= shr_m (fst (shr_fexp PyFloat.prec PyFloat.emax m e l)))%Z.
Proof.
  intros H. unfold shr_fexp. apply shr_nonneg.
  destruct l as [| []]; exact H.
Qed.

Lemma round_nearest_even_nonneg (m : Z) (l : location) :
  (0 <= m)%Z -> (0 <= round_nearest_even m l)%Z.
Proof.
  intros H. destruct l as [| []]; simpl; try lia.
  destruct (Z.even m); lia.
Qed.

(** Rounding what is not negative gives a zero, a finite float or an
    infinity, of positive sign. *)
Lemma binary_round_aux_nonneg (m e : Z) (l : location) :
  (0 <= m)%Z ->
  let f := binary_round_aux PyFloat.prec PyFloat.emax false m e l in
  f = S754_zero false
  \/ (exists m' e', f = S754_finite false m' e')
  \/ f = S754_infinity false.
Proof.
  intros H. cbn zeta. unfold binary_round_aux.
  pose proof (shr_fexp_nonneg m e l H) as H1.
  destruct (shr_fexp PyFloat.prec PyFloat.emax m e l) as [mrs' e'].
  cbn [fst] in H1.
  pose proof (shr_fexp_nonneg
                (round_nearest_even (shr_m mrs') (loc_of_shr_record mrs'))
                e' loc_Exact (round_nearest_even_nonneg _ _ H1)) as H2.
  destruct (shr_fexp PyFloat.prec PyFloat.emax
              (round_nearest_even (shr_m mrs') (loc_of_shr_record mrs'))
              e' loc_Exact) as [mrs'' e''].
  cbn [fst] in H2.
  destruct (shr_m mrs'') as [| p | p].
  - now left.
  - destruct (e'' <=? PyFloat.emax - PyFloat.prec)%Z; eauto.
  - lia.
Qed.

Lemma of_decimal_nonneg (n : N) (k : nat) :
  let f := PyFloat.of_decimal n k in
  f = S754_zero false
  \/ (exists m e, f = S754_finite false m e)
  \/ f = S754_infinity false.
Proof.
  cbn zeta. unfold PyFloat.of_decimal.
  destruct n as [| m]; [now left |].
  unfold SFdiv, SFdiv_core_binary.
  set (e' := Z.min _ _). set (m' := match (0 - 0 - e')%Z with
                                    | Z0 => Z.pos m
                                    | Z.pos _ => Z.shiftl (Z.pos m) (0 - 0 - e')
                                    | Z.neg _ => 0%Z
                                    end).
  assert (Hm' : (0 <= m')%Z).
  { unfold m'. destruct (0 - 0 - e')%Z; try lia.
    apply Z.shiftl_nonneg. lia. }
  pose proof (Z.div_pos m' (Z.pos (PyFloat.pow10 k)) Hm' eq_refl) as Hq.
  unfold Z.div in Hq.
  destruct (Z.div_eucl m' (Z.pos (PyFloat.pow10 k))) as [q r].
  cbn [fst] in Hq. cbn [xorb].
  apply binary_round_aux_nonneg, Hq.
Qed.

Lemma extract_price_of_decimal (w : World) (price_text : option text) (f : float) :
  extract_price w price_text = Ok (Some f) ->
  exists n k, f = PyFloat.of_decimal n k.
Proof.
  unfold extract_price.
  destruct price_text as [t |]; [| discriminate].
  destruct (negb (text_truthy t)); [discriminate |].
  destruct (re_search w t) as [group |]; [| discriminate].
  unfold float_of_str.
  destruct (scan_literal w group false 0 0 0) as [[[n k] [| d]] |];
    cbn [bind_result]; try discriminate.
  intros H. injection H as <-. now exists n, k.
Qed.

(** X3. A price that [extract_price] returns is never NaN and never
    negative: it is a zero, a finite float or an infinity, of positive
    sign. *)
Theorem extract_price_sign (w : World) (price_text : option text) (f : float) :
  extract_price w price_text = Ok (Some f) ->
  f = S754_zero false
  \/ (exists m e, f = S754_finite false m e)
  \/ f = S754_infinity false.
Proof.
  intros H. destruct (extract_price_of_decimal w price_text f H) as (n & k & ->).
  apply of_decimal_nonneg.
Qed.

Lemma extract_price_sign_witness :
  Sample.sc 12 1 = S754_zero false
  \/ (exists m e, Sample.sc 12 1 = S754_finite false m e)
  \/ Sample.sc 12 1 = S754_infinity false.
Proof.
  apply (extract_price_sign Sample.site (Some (txt "1.2 Cr"))).
  reflexivity.
Defined.

(* ================================================================= *)
(** * What every kept listing satisfies *)

Lemma lstrip_suffix (t : text) :
  exists spaces, t = spaces ++ lstrip t.
Proof.
  induction t as [| c t [sp IH]]; simpl.
  - now exists [].
  - destruct (Unicode.isspace c).
    + exists (c :: sp). simpl. now f_equal.
    + now exists [].
Qed.

Lemma lstrip_head (t : text) :
  match lstrip t with
  | [] => True
  | c :: _ => Unicode.isspace c = false
  end.
Proof.
  induction t as [| c t IH]; simpl; [exact I |].
  destruct (Unicode.isspace c) eqn:Hc; [exact IH | exact Hc].
Qed.

Lemma rstrip_prefix (t : text) :
  exists spaces, t = rstrip t ++ spaces.
Proof.
  unfold rstrip. destruct (lstrip_suffix (rev t)) as [sp H].
  exists (rev sp). rewrite <- rev_app_distr, <- H. now rewrite rev_involutive.
Qed.

Lemma strip_stripped (t : text) : stripped (strip t).
Proof.
  unfold stripped, strip. split.
  - destruct (rstrip_prefix (lstrip t)) as [sp H].
    pose proof (lstrip_head t) as Hh. rewrite H in Hh.
    destruct (rstrip (lstrip t)); [exact I | exact Hh].
  - unfold rstrip. rewrite rev_involutive. apply lstrip_head.
Qed.

Section KeptListings.
Variable w : World.
Variable P : Listing -> Prop.

(** What holds of every listing that a card builds with a truthy price
    holds of every row of the frame of a run. *)
Hypothesis built :
  forall card l,
    build_listing w card = Ok l -> price_truthy (price l) = true -> P l.

Lemma card_listings_forall (card : Card) : Forall P (card_listings w card).
Proof.
  unfold card_listings.
  destruct (build_listing w card) as [l | e] eqn:Hb; [| constructor].
  destruct (price_truthy (price l)) eqn:Hp; repeat constructor.
  now apply (built card).
Qed.

Lemma run_rows_forall (city : text) (max_pages : Z) (st : state) :
  exists df st',
    scrape_listings w city max_pages st = (Ok df, st') /\ Forall P (rows df).
Proof.
  eexists. eexists. split; [apply scrape_listings_run |].
  rewrite rows_pd_DataFrame.
  induction (range 1 (max_pages + 1)) as [| p pages IH]; simpl.
  - constructor.
  - apply Forall_app. split; [| exact IH].
    unfold page_listings. destruct (page_cards w city p) as [cards |];
      [| constructor].
    induction cards as [| c cards IHc]; simpl; [constructor |].
    apply Forall_app. split; [apply card_listings_forall | exact IHc].
Qed.

End KeptListings.

(** The fields of a listing that was built, by the card it comes from. *)
Lemma build_listing_fields (w : World) (card : Card) (l : Listing) :
  build_listing w card = Ok l ->
  extract_price w (stripped_text (find_price card)) = Ok (price l)
  /\ title l = stripped_text (find_title card)
  /\ area l = stripped_text (find_area card)
  /\ url_value card = Ok (url l)
  /\ analyze_sentiment w (title l) = Ok (sentiment l).
Proof.
  unfold build_listing.
  destruct (extract_price w (stripped_text (find_price card))) as [p | e];
    cbn [bind_result]; [| discriminate].
  destruct (url_value card) as [u | e]; cbn [bind_result]; [| discriminate].
  destruct (analyze_sentiment w (stripped_text (find_title card))) as [s | e] eqn:Hs;
    cbn [bind_result]; [| discriminate].
  intros H. injection H as <-. cbn. auto.
Qed.

(** X4. Every listing of the frame a run returns has a price above zero:
    a positive finite float or plus infinity, never NaN, zero or a
    negative number. *)
Theorem kept_prices_positive
    (w : World) (city : text) (max_pages : Z) (st : state) :
  exists df st',
    scrape_listings w city max_pages st = (Ok df, st')
    /\ Forall (fun l => exists f, price l = Some f /\ positive_float f) (rows df).
Proof.
  apply run_rows_forall. intros card l Hb Hp.
  destruct (build_listing_fields w card l Hb) as (Hprice & _).
  destruct (price l) as [f |]; [| discriminate Hp].
  exists f. split; [reflexivity |].
  destruct (extract_price_of_decimal w _ f Hprice) as (n & k & ->).
  destruct (of_decimal_nonneg n k) as [H | [H | H]].
  - rewrite H in Hp. discriminate Hp.
  - now left.
  - now right.
Qed.

(** X5. The title and the area of every listing of the frame, when
    present, neither begin nor end with white space. *)
Theorem kept_texts_stripped
    (w : World) (city : text) (max_pages : Z) (st : state) :
  exists df st',
    scrape_listings w city max_pages st = (Ok df, st')
    /\ Forall (fun l =>
                 (forall t, title l = Some t -> stripped t)
                 /\ (forall a, area l = Some a -> stripped a)) (rows df).
Proof.
  apply run_rows_forall. intros card l Hb _.
  destruct (build_listing_fields w card l Hb) as (_ & Ht & Ha & _).
  rewrite Ht, Ha. unfold stripped_text.
  split; intros t H.
  - destruct (find_title card); [| discriminate].
    injection H as <-. apply strip_stripped.
  - destruct (find_area card); [| discriminate].
    injection H as <-. apply strip_stripped.
Qed.

(** X6. In every listing of the frame the sentiment is absent exactly
    when the title is absent or the empty string. *)
Theorem kept_sentiment_iff_title
    (w : World) (city : text) (max_pages : Z) (st : state) :
  exists df st',
    scrape_listings w city max_pages st = (Ok df, st')
    /\ Forall (fun l =>
                 sentiment l = None <-> (title l = None \/ title l = Some []))
              (rows df).
Proof.
  apply run_rows_forall. intros card l Hb _.
  destruct (build_listing_fields w card l Hb) as (_ & _ & _ & _ & Hs).
  unfold analyze_sentiment in Hs.
  destruct (title l) as [[| c t] |]; cbn [text_truthy] in Hs.
  - injection Hs as <-. split; auto.
  - destruct (polarity w (c :: t)); cbn [bind_result] in Hs; [| discriminate].
    injection Hs as <-.
    split; [discriminate | intros [H | H]; discriminate H].
  - injection Hs as <-. split; auto.
Qed.

(** X7. The url of every listing of the frame is absent or begins with
    the site origin, [https://www.magicbricks.com]. *)
Theorem kept_urls_absolute
    (w : World) (city : text) (max_pages : Z) (st : state) :
  exists df st',
    scrape_listings w city max_pages st = (Ok df, st')
    /\ Forall (fun l => url l = None
                        \/ exists href, url l = Some (base_url ++ href))
              (rows df).
Proof.
  apply run_rows_forall. intros card l Hb _.
  destruct (build_listing_fields w card l Hb) as (_ & _ & _ & Hu & _).
  unfold url_value in Hu.
  destruct (find_a card) as [link |].
  - destruct (tag_getitem link "href") as [href | e]; cbn [bind_result] in Hu;
      [| discriminate].
    injection Hu as <-. right. now exists href.
  - injection Hu as <-. now left.
Qed.

(* ================================================================= *)
(** * Requests and delays of a run *)

Lemma txt_inj (a b : string) : txt a = txt b -> a = b.
Proof.
  revert b; induction a as [| x a IH]; intros [| y b]; simpl;
    try discriminate; [reflexivity |].
  intros H. injection H as Hxy Hab. f_equal; [| now apply IH].
  rewrite <- (ascii_N_embedding x), <- (ascii_N_embedding y). now f_equal.
Qed.

Lemma str_of_int_inj (p q : Z) : str_of_int p = str_of_int q -> p = q.
Proof.
  unfold str_of_int. intros H. apply txt_inj in H.
  apply DecimalZ.to_int_inj.
  assert (Hnil : forall z, Z.to_int z <> Decimal.Pos Decimal.Nil
                           /\ Z.to_int z <> Decimal.Neg Decimal.Nil).
  { intros [| z | z]; simpl; split; try discriminate;
      intros E; injection E as E;
      exact (DecimalPos.Unsigned.to_uint_nonnil z E). }
  assert (Hs : Some (Z.to_int p) = Some (Z.to_int q)).
  { rewrite <- (NilZero.isi (Z.to_int p)) by apply Hnil.
    rewrite <- (NilZero.isi (Z.to_int q)) by apply Hnil.
    now rewrite H. }
  now injection Hs.
Qed.

Lemma NoDup_map_inj {A B} (f : A -> B) (l : list A) :
  (forall a b, f a = f b -> a = b) -> NoDup l -> NoDup (map f l).
Proof.
  intros Hf. induction 1 as [| x l Hx _ IH]; simpl; constructor; [| exact IH].
  intros Hin. apply in_map_iff in Hin. destruct Hin as (y & Hy & Hin).
  apply Hf in Hy. now subst.
Qed.

(** Two pages of a city have two addresses. *)
Lemma page_url_inj (city : text) (p q : Z) :
  page_url city p = page_url city q -> p = q.
Proof.
  unfold page_url. intros H.
  repeat apply app_inv_head in H. now apply str_of_int_inj.
Qed.

Lemma range_from_1_NoDup (n : Z) : NoDup (range 1 (n + 1)).
Proof.
  rewrite range_from_1. apply NoDup_map_inj.
  - intros a b. apply Nat2Z.inj.
  - apply seq_NoDup.
Qed.

Lemma range_from_1_bounds (n page : Z) :
  In page (range 1 (n + 1)) <-> (1 <= page <= n)%Z.
Proof.
  rewrite range_from_1, in_map_iff. split.
  - intros (i & <- & Hi). apply in_seq in Hi. lia.
  - intros H. exists (Z.to_nat page). split; [lia |]. apply in_seq. lia.
Qed.

Section RunEvents.
Variable w : World.
Variable city : text.

Lemma get_events (pages : list Z) :
  filter is_get (flat_map (page_events w city) pages)
  = map (fun page => Get (page_url city page)) pages.
Proof.
  induction pages as [| p ps IH]; [reflexivity |].
  cbn [flat_map map]. unfold page_events at 1.
  cbn [app filter is_get]. f_equal. rewrite filter_app.
  destruct (page_cards w city p); cbn [filter is_get app]; exact IH.
Qed.

Lemma sleep_seconds_app (a b : list event) :
  sleep_seconds (a ++ b) = (sleep_seconds a + sleep_seconds b)%N.
Proof.
  induction a as [| [u | s] a IH]; simpl; rewrite ?IH; lia.
Qed.

Lemma sleep_seconds_pages (pages : list Z) :
  sleep_seconds (flat_map (page_events w city) pages)
  = (2 * N.of_nat (List.length (filter (page_processed w city) pages)))%N.
Proof.
  induction pages as [| p ps IH]; [reflexivity |].
  cbn [flat_map filter]. rewrite sleep_seconds_app, IH.
  unfold page_events, page_processed.
  destruct (page_cards w city p); cbn [sleep_seconds List.length app]; lia.
Qed.

Lemma card_listings_length (card : Card) :
  List.length (card_listings w card) <= 1.
Proof.
  unfold card_listings. destruct (build_listing w card) as [l | e]; simpl;
    [destruct (price_truthy (price l)); simpl |]; lia.
Qed.

Lemma page_listings_length (page : Z) :
  List.length (page_listings w city page) <= page_card_count w city page.
Proof.
  unfold page_listings, page_card_count.
  destruct (page_cards w city page) as [cards |]; [| simpl; lia].
  induction cards as [| c cards IH]; simpl; [lia |].
  rewrite length_app. pose proof (card_listings_length c). lia.
Qed.

End RunEvents.

(** X8. A run keeps at most one listing per card: the frame has no more
    rows than the pages that were fetched and read showed cards. *)
Theorem rows_bounded_by_cards
    (w : World) (city : text) (max_pages : Z) (st : state) :
  exists df st',
    scrape_listings w city max_pages st = (Ok df, st')
    /\ List.length (rows df)
       <= list_sum (map (page_card_count w city) (range 1 (max_pages + 1))).
Proof.
  eexists. eexists. split; [apply scrape_listings_run |].
  rewrite rows_pd_DataFrame.
  induction (range 1 (max_pages + 1)) as [| p pages IH]; simpl; [lia |].
  rewrite length_app. pose proof (page_listings_length w city p). lia.
Qed.

(** X9. A run asks for no address twice: the addresses of its GETs are
    pairwise different, one for each page, and a failed page is not
    asked for again. *)
Theorem no_page_requested_twice
    (w : World) (city : text) (max_pages : Z) (st : state) :
  exists df st' events,
    scrape_listings w city max_pages st = (Ok df, st')
    /\ trace st' = trace st ++ events
    /\ NoDup (filter is_get events)
    /\ List.length (filter is_get events) = Z.to_nat max_pages.
Proof.
  eexists. eexists. eexists. split; [apply scrape_listings_run |].
  split; [reflexivity |]. rewrite get_events. split.
  - apply NoDup_map_inj; [| apply range_from_1_NoDup].
    intros p q H. apply (page_url_inj city).
    exact (f_equal (fun e => match e with Get u => u | Sleep _ => [] end) H).
  - now rewrite length_map, range_from_1_length.
Qed.

(** X10. A run sleeps two seconds for each page it fetched and read, and
    so at most [2 * max_pages] seconds in all. *)
Theorem total_sleep_bounded
    (w : World) (city : text) (max_pages : Z) (st : state) :
  exists df st' events,
    scrape_listings w city max_pages st = (Ok df, st')
    /\ trace st' = trace st ++ events
    /\ sleep_seconds events
       = (2 * N.of_nat (List.length (filter (page_processed w city)
                                            (range 1 (max_pages + 1)))))%N
    /\ (Z.of_N (sleep_seconds events) <= 2 * Z.max 0 max_pages)%Z.
Proof.
  eexists. eexists. eexists. split; [apply scrape_listings_run |].
  split; [reflexivity |]. rewrite sleep_seconds_pages. split; [reflexivity |].
  pose proof (filter_length_le (page_processed w city) (range 1 (max_pages + 1))) as H.
  rewrite range_from_1_length in H. lia.
Qed.

(** X11. When the last page is fetched and read, the run ends with the
    pacing delay, although no request follows it. *)
Theorem run_ends_with_sleep
    (w : World) (city : text) (max_pages : Z) (st : state) :
  (0 < max_pages)%Z ->
  page_processed w city max_pages = true ->
  exists df st' events,
    scrape_listings w city max_pages st = (Ok df, st')
    /\ trace st' = trace st ++ events
                   ++ [Get (page_url city max_pages); Sleep 2].
Proof.
  intros Hpos Hlast. eexists. eexists.
  exists (flat_map (page_events w city) (range 1 max_pages)).
  split; [apply scrape_listings_run |]. cbn [trace]. f_equal.
  assert (Hr : range 1 (max_pages + 1) = range 1 max_pages ++ [max_pages]).
  { unfold range. replace (Z.to_nat (max_pages + 1 - 1))
      with (S (Z.to_nat (max_pages - 1))) by lia.
    rewrite seq_S, map_app. cbn [map]. f_equal. f_equal. lia. }
  rewrite Hr, flat_map_app. f_equal. cbn [flat_map].
  rewrite app_nil_r. unfold page_events. unfold page_processed in Hlast.
  destruct (page_cards w city max_pages); [reflexivity | discriminate].
Qed.

Lemma run_ends_with_sleep_witness :
  exists df st' events,
    scrape_listings Sample.site Sample.mumbai 1 Sample.st0 = (Ok df, st')
    /\ trace st' = trace Sample.st0 ++ events
                   ++ [Get (page_url Sample.mumbai 1); Sleep 2].
Proof.
  apply (run_ends_with_sleep Sample.site Sample.mumbai 1 Sample.st0);
    reflexivity.
Defined.

(** X12. Processing a card never raises, whatever exception the price,
    the link or the scorer raises: it appends at most one listing after
    those gathered so far, and makes no request and no delay. *)
Theorem process_card_isolated (w : World) (card : Card) (st : state) :
  exists added,
    process_card w card st
    = (Ok tt, {| listings := listings st ++ added; trace := trace st |})
    /\ List.length added <= 1
    /\ (forall e, build_listing w card = Raise e -> added = []).
Proof.
  exists (card_listings w card). split; [apply process_card_run |].
  split; [apply card_listings_length |].
  intros e He. unfold card_listings. now rewrite He.
Qed.

(* ================================================================= *)
(** * More on analyze_keywords *)

Lemma SFleb_trans (x y z : float) :
  SFleb x y = true -> SFleb y z = true -> SFleb x z = true.
Proof.
  unfold SFleb.
  destruct x as [sx | sx | | sx mx ex], y as [sy | sy | | sy my ey],
           z as [sz | sz | | sz mz ez];
    try destruct sx; try destruct sy; try destruct sz;
    cbn [SFcompare]; try reflexivity; try discriminate;
    rewrite ?Pos.compare_cont_spec; cbn [Pos.switch_Eq];
    destruct (Z.compare_spec ex ey), (Z.compare_spec ey ez),
      (Z.compare_spec ex ez);
    try reflexivity; try discriminate; try lia;
    destruct (Pos.compare_spec mx my), (Pos.compare_spec my mz),
      (Pos.compare_spec mx mz);
    cbn [CompOpp]; try reflexivity; try discriminate; try lia.
Qed.

Lemma score_desc_trans (a b c : KeywordRow) :
  score_desc a b = true -> score_desc b c = true -> score_desc a c = true.
Proof.
  unfold score_desc, PyFloat.leb.
  destruct (PyFloat.is_nan (score c)); [reflexivity |].
  destruct (PyFloat.is_nan (score b)); cbn [negb orb andb]; [discriminate |].
  destruct (PyFloat.is_nan (score a)); cbn [negb orb andb]; [discriminate |].
  intros Hba Hcb. exact (SFleb_trans _ _ _ Hcb Hba).
Qed.

(** Equal scores are in order. *)
Lemma score_same_leb (x y : float) :
  score_same x y = true -> PyFloat.is_nan x = false -> PyFloat.leb x y = true.
Proof.
  unfold score_same, PyFloat.eqb, PyFloat.leb, SFeqb, SFleb.
  intros H Hx. rewrite Hx, orb_false_r in H.
  destruct (SFcompare x y) as [[| |] |]; try discriminate; reflexivity.
Qed.

Lemma drop_duplicates_from_length (l seen : list KeywordRow) :
  List.length (drop_duplicates_from seen l) <= List.length l.
Proof.
  revert seen; induction l as [| r l IH]; intros seen; simpl; [lia |].
  destruct (existsb (row_same r) seen).
  - specialize (IH seen). lia.
  - specialize (IH (r :: seen)). simpl. lia.
Qed.

Lemma keyword_rows_In (keywords : list (float * text)) (r : KeywordRow) :
  In r (keyword_rows keywords) -> In (score r, keyword r) keywords.
Proof.
  unfold keyword_rows. intros H. apply in_map_iff in H.
  destruct H as ([s k] & <- & H). exact H.
Qed.

(** X13. [analyze_keywords] raises in two cases only: the frame has no
    [title] column, and the exception is [KeyError]; or the ranker raises
    on the corpus of titles, and the exception is the ranker's. *)
Theorem analyze_keywords_raises_iff (w : World) (df : DataFrame) (e : exn) :
  analyze_keywords w df = Raise e
  <-> (~ In "title"%string (columns df) /\ e = KeyError "title")
      \/ (In "title"%string (columns df)
          /\ ranked_phrases_with_scores w
               (join (txt " ") (dropna (map title (rows df)))) = Raise e).
Proof.
  unfold analyze_keywords, df_getitem_title.
  destruct (existsb (String.eqb "title") (columns df)) eqn:Hc; cbn [bind_result].
  - apply existsb_exists in Hc. destruct Hc as (c & Hin & Heq).
    apply String.eqb_eq in Heq. subst c.
    destruct (ranked_phrases_with_scores w _) as [kws | e'];
      cbn [bind_result]; split.
    + discriminate.
    + intros [[Hno _] | [_ H]]; [contradiction | discriminate].
    + intros H. injection H as <-. right. split; [exact Hin | reflexivity].
    + intros [[Hno _] | [_ H]]; [contradiction |].
      injection H as <-. reflexivity.
  - assert (Hno : ~ In "title"%string (columns df)).
    { intros Hin. rewrite (existsb_title_columns df Hin) in Hc. discriminate. }
    split.
    + intros H. injection H as <-. left. split; [exact Hno | reflexivity].
    + intros [[_ ->] | [Hin _]]; [reflexivity | contradiction].
Qed.

(** X14. The output never invents a row: each of its rows is a pair of
    the ranker's answer, and it has the 20 first rows of the sort, or all
    of the distinct rows when they are fewer. *)
Theorem top_keywords_from_ranker
    (w : World) (df : DataFrame) (keywords : list (float * text)) :
  sort_contract w ->
  In "title"%string (columns df) ->
  ranked_phrases_with_scores w (join (txt " ") (dropna (map title (rows df))))
  = Ok keywords ->
  exists out,
    analyze_keywords w df = Ok out
    /\ (forall r, In r out -> In (score r, keyword r) keywords)
    /\ List.length out
       = Nat.min 20 (List.length (drop_duplicates (keyword_rows keywords)))
    /\ List.length out <= List.length keywords.
Proof.
  intros Hsort Htitle Hranked. eexists.
  split; [apply (analyze_keywords_run w df Htitle keywords Hranked) |].
  assert (Hlen : List.length (head 20 (sort_values_desc w
                    (drop_duplicates (keyword_rows keywords))))
                 = Nat.min 20 (List.length (drop_duplicates (keyword_rows keywords)))).
  { unfold head. rewrite length_firstn.
    now rewrite (Permutation_length (proj1 Hsort _)). }
  split; [| split].
  - intros r Hr. apply keyword_rows_In.
    exact (top_keywords_incl w Hsort keywords r Hr).
  - exact Hlen.
  - rewrite Hlen.
    pose proof (drop_duplicates_from_length (keyword_rows keywords) []) as H.
    unfold drop_duplicates. unfold keyword_rows in *.
    rewrite length_map in H. lia.
Qed.

Lemma top_keywords_from_ranker_witness :
  exists out,
    analyze_keywords (Sample.world Sample.all_fail [] Sample.repeated)
                     Sample.one_row = Ok out
    /\ (forall r, In r out -> In (score r, keyword r) Sample.repeated)
    /\ List.length out
       = Nat.min 20 (List.length (drop_duplicates (keyword_rows Sample.repeated)))
    /\ List.length out <= List.length Sample.repeated.
Proof.
  apply (top_keywords_from_ranker
           (Sample.world Sample.all_fail [] Sample.repeated)
           Sample.one_row Sample.repeated).
  - apply sample_sort_contract.
  - simpl. auto.
  - reflexivity.
Defined.

(** X15. The output is empty exactly when the ranker finds no phrase. *)
Theorem top_keywords_empty_iff
    (w : World) (df : DataFrame) (keywords : list (float * text)) :
  sort_contract w ->
  In "title"%string (columns df) ->
  ranked_phrases_with_scores w (join (txt " ") (dropna (map title (rows df))))
  = Ok keywords ->
  exists out,
    analyze_keywords w df = Ok out /\ (out = [] <-> keywords = []).
Proof.
  intros Hsort Htitle Hranked. eexists.
  split; [apply (analyze_keywords_run w df Htitle keywords Hranked) |].
  destruct keywords as [| sk kws].
  - cbn [keyword_rows map drop_duplicates drop_duplicates_from].
    pose proof (Permutation_length (proj1 Hsort [])) as H.
    destruct (sort_values_desc w []); [| discriminate H].
    split; reflexivity.
  - split; [| discriminate].
    unfold drop_duplicates. cbn [keyword_rows map drop_duplicates_from existsb].
    set (kept := _ :: drop_duplicates_from _ _).
    pose proof (Permutation_length (proj1 Hsort kept)) as H.
    destruct (sort_values_desc w kept); [discriminate H | discriminate].
Qed.

Lemma top_keywords_empty_iff_witness :
  exists out,
    analyze_keywords (Sample.world Sample.all_fail [] Sample.repeated)
                     Sample.one_row = Ok out
    /\ (out = [] <-> Sample.repeated = []).
Proof.
  apply (top_keywords_empty_iff
           (Sample.world Sample.all_fail [] Sample.repeated)
           Sample.one_row Sample.repeated).
  - apply sample_sort_contract.
  - simpl. auto.
  - reflexivity.
Defined.

(** X16. When no score is NaN, the first entry of the output has the
    highest score of the ranker's answer. *)
Theorem top_keyword_is_maximal
    (w : World) (df : DataFrame) (keywords : list (float * text))
    (top : KeywordRow) (rest : list KeywordRow) :
  sort_contract w ->
  In "title"%string (columns df) ->
  ranked_phrases_with_scores w (join (txt " ") (dropna (map title (rows df))))
  = Ok keywords ->
  Forall (fun sk => PyFloat.is_nan (fst sk) = false) keywords ->
  analyze_keywords w df = Ok (top :: rest) ->
  forall sk, In sk keywords -> PyFloat.leb (fst sk) (score top) = true.
Proof.
  intros Hsort Htitle Hranked Hnan Hout sk Hsk.
  rewrite (analyze_keywords_run w df Htitle keywords Hranked) in Hout.
  injection Hout as Hout.
  set (sorted := sort_values_desc w (drop_duplicates (keyword_rows keywords))) in *.
  assert (Hnan_rows : forall r, In r (keyword_rows keywords) ->
                                PyFloat.is_nan (score r) = false).
  { intros r Hr. apply keyword_rows_In in Hr.
    rewrite Forall_forall in Hnan. exact (Hnan _ Hr). }
  assert (Hstrong : StronglySorted (fun a b => score_desc a b = true) sorted).
  { apply Sorted_StronglySorted; [| apply (proj2 Hsort)].
    intros a b c. apply score_desc_trans. }
  destruct sorted as [| top' sorted'] eqn:Hsorted; [discriminate Hout |].
  cbn [head firstn] in Hout. injection Hout as -> _.
  assert (Hrow : In {| score := fst sk; keyword := snd sk |} (keyword_rows keywords)).
  { unfold keyword_rows. apply in_map_iff. now exists sk. }
  destruct (drop_duplicates_covers _ _ Hrow) as (s & Hs & Hsame).
  assert (Hs_rows : In s (keyword_rows keywords)).
  { eapply drop_duplicates_from_incl, Hs. }
  assert (Hs_sorted : In s (top :: sorted')).
  { rewrite <- Hsorted. unfold sorted.
    eapply Permutation_in; [apply Permutation_sym, (proj1 Hsort) | exact Hs]. }
  unfold row_same in Hsame. apply andb_prop in Hsame. destruct Hsame as [Hsame _].
  cbn [score] in Hsame.
  assert (Hle : PyFloat.leb (fst sk) (score s) = true).
  { apply score_same_leb; [exact Hsame |].
    rewrite Forall_forall in Hnan. exact (Hnan _ Hsk). }
  destruct Hs_sorted as [<- | Hin]; [exact Hle |].
  inversion Hstrong as [| ? ? _ Hall]; subst.
  rewrite Forall_forall in Hall. specialize (Hall s Hin).
  unfold score_desc in Hall. rewrite (Hnan_rows s Hs_rows) in Hall.
  cbn [orb] in Hall. apply andb_prop in Hall. destruct Hall as [_ Hall].
  exact (SFleb_trans _ _ _ Hle Hall).
Qed.

Lemma top_keyword_is_maximal_witness :
  PyFloat.leb (fst (Sample.sc 1 0, txt "garden")) (Sample.sc 2 0) = true.
Proof.
  apply (top_keyword_is_maximal
           (Sample.world Sample.all_fail [] Sample.repeated)
           Sample.one_row Sample.repeated
           {| score := Sample.sc 2 0; keyword := txt "sea view" |}
           [{| score := Sample.sc 1 0; keyword := txt "garden" |}]).
  - apply sample_sort_contract.
  - simpl. auto.
  - reflexivity.
  - repeat constructor.
  - vm_compute. reflexivity.
  - simpl. auto.
Defined.

(** X17. The frame of a run has the [title] column exactly when the run
    kept a listing. So on that frame [analyze_keywords] raises the
    [KeyError] of the missing column when no listing was kept, and with
    one listing or more it raises only what the ranker raises. *)
Theorem analyze_after_run
    (w : World) (city : text) (max_pages : Z) (st : state) :
  exists df st',
    scrape_listings w city max_pages st = (Ok df, st')
    /\ (In "title"%string (columns df) <-> rows df <> [])
    /\ (rows df = [] -> analyze_keywords w df = Raise (KeyError "title"))
    /\ (rows df <> [] ->
        forall e, analyze_keywords w df = Raise e ->
                  ranked_phrases_with_scores w
                    (join (txt " ") (dropna (map title (rows df)))) = Raise e).
Proof.
  eexists. eexists. split; [apply scrape_listings_run |].
  destruct (flat_map (page_listings w city) (range 1 (max_pages + 1)))
    as [| l ls]; cbn [pd_DataFrame rows columns].
  - split; [| split].
    + split; [intros [] | intros H; now contradiction H].
    + reflexivity.
    + intros H. now contradiction H.
  - split; [| split].
    + split; [discriminate | intros _; simpl; auto].
    + discriminate.
    + intros _ e. unfold analyze_keywords, df_getitem_title.
      cbn [columns rows existsb String.eqb Ascii.eqb Bool.eqb orb andb bind_result].
      destruct (ranked_phrases_with_scores w _) as [kws | e'];
        cbn [bind_result]; [discriminate |].
      intros H. injection H as <-. reflexivity.
Qed.

(* ================================================================= *)
(** * visualize_data *)

Section Figures.
Variable d : Desktop.

Lemma saves_call (c : plt_call) :
  saves (call d c) (match c with savefig p => [p] | _ => [] end).
Proof.
  intros calls. exists [c]. split; [reflexivity |].
  destruct c; cbn [filter is_savefig map]; split;
    try (now exists []); reflexivity.
Qed.

Lemma saves_vlift {A} (r : result A) : saves (vlift r) [].
Proof.
  intros calls. exists []. split; [now rewrite app_nil_r |].
  split; [now exists [] | reflexivity].
Qed.

Lemma saves_vbind {A B} (m : V A) (k : A -> V B) (f1 f2 : list text) :
  saves m f1 -> (forall x, saves (k x) f2) -> saves (vbind m k) (f1 ++ f2).
Proof.
  intros Hm Hk calls. unfold vbind.
  destruct (Hm calls) as (made1 & Hsnd & (later1 & Hpre1) & Hok1).
  destruct (m calls) as [[v | e] calls1]; cbn [fst snd] in *; subst calls1.
  - specialize (Hok1 v eq_refl).
    destruct (Hk v (calls ++ made1)) as (made2 & Hsnd2 & (later2 & Hpre2) & Hok2).
    exists (made1 ++ made2). rewrite Hsnd2, app_assoc.
    split; [reflexivity |]. rewrite filter_app, map_app, Hok1. split.
    + exists later2. now rewrite Hpre2, app_assoc.
    + intros v' Hv'. now rewrite (Hok2 v' Hv').
  - exists made1. split; [reflexivity |]. split; [| discriminate].
    exists (later1 ++ map savefig f2). now rewrite map_app, Hpre1, app_assoc.
Qed.

(** One more call, which is no [savefig]. *)
Lemma saves_then (c : plt_call) {B} (k : V B) (files : list text) :
  is_savefig c = false -> saves k files ->
  saves (vbind (call d c) (fun _ => k)) files.
Proof.
  intros Hc Hk. change files with ([] ++ files).
  apply saves_vbind; [| intros _; exact Hk].
  pose proof (saves_call c) as H. destruct c; try exact H. discriminate Hc.
Qed.

Lemma saves_then_savefig (p : text) {B} (k : V B) (files : list text) :
  saves k files ->
  saves (vbind (call d (savefig p)) (fun _ => k)) (p :: files).
Proof.
  intros Hk. change (p :: files) with ([p] ++ files).
  apply saves_vbind; [apply (saves_call (savefig p)) | intros _; exact Hk].
Qed.

Lemma saves_then_column {A B} (r : result A) (k : A -> V B) (files : list text) :
  (forall x, saves (k x) files) -> saves (vbind (vlift r) k) files.
Proof.
  intros Hk. change files with ([] ++ files).
  apply saves_vbind; [apply saves_vlift | exact Hk].
Qed.

Lemma visualize_data_saves (df : DataFrame) (keywords_df : list KeywordRow) :
  saves (visualize_data d df keywords_df)
        [output_path d "price_distribution.png";
         output_path d "top_keywords.png";
         output_path d "sentiment_distribution.png"].
Proof.
  unfold visualize_data.
  repeat first
    [ apply saves_then_savefig
    | apply saves_then; [reflexivity |]
    | apply saves_then_column; intros ? ].
  apply (saves_call show).
Qed.

Lemma dropna_float_all (l : list (option float)) :
  Forall (fun o => exists f, o = Some f /\ PyFloat.is_nan f = false) l ->
  map Some (dropna_float l) = l.
Proof.
  unfold dropna_float. induction 1 as [| o l (f & -> & Hf) _ IH].
  - reflexivity.
  - cbn [dropna filter]. rewrite Hf. cbn [negb map]. now rewrite IH.
Qed.

End Figures.

(** X18. Whatever the calls to pyplot do, [visualize_data] saves no
    figure other than its three, and in their order: the price
    distribution, the top keywords, the sentiment distribution. It has
    saved all three when it returns; when a call raises, it stops there
    with the figures saved so far. *)
Theorem visualize_data_figures
    (d : Desktop) (df : DataFrame) (keywords_df : list KeywordRow)
    (calls : list plt_call) :
  let figures := [savefig (output_path d "price_distribution.png");
                  savefig (output_path d "top_keywords.png");
                  savefig (output_path d "sentiment_distribution.png")] in
  exists made,
    snd (visualize_data d df keywords_df calls) = calls ++ made
    /\ (exists later, figures = filter is_savefig made ++ later)
    /\ (fst (visualize_data d df keywords_df calls) = Ok tt ->
        filter is_savefig made = figures).
Proof.
  cbn zeta.
  destruct (visualize_data_saves d df keywords_df calls)
    as (made & Hsnd & Hpre & Hok).
  exists made. split; [exact Hsnd |]. split; [exact Hpre |].
  apply Hok.
Qed.

(** X19. On a frame without the [price] column, as the frame of a run
    that kept no listing is, [visualize_data] raises [KeyError] right
    after opening the first figure: nothing is drawn and no file is
    saved. *)
Theorem visualize_data_no_price_column
    (d : Desktop) (df : DataFrame) (keywords_df : list KeywordRow)
    (calls : list plt_call) :
  ~ In "price"%string (columns df) ->
  plt d calls figure = Ok tt ->
  visualize_data d df keywords_df calls
  = (Raise (KeyError "price"), calls ++ [figure]).
Proof.
  intros Hno Hfig. unfold visualize_data, vbind, call at 1, vlift, df_getitem.
  rewrite Hfig.
  destruct (existsb (String.eqb "price") (columns df)) eqn:Hc; [| reflexivity].
  apply existsb_exists in Hc. destruct Hc as (c & Hin & Heq).
  apply String.eqb_eq in Heq. subst c. contradiction.
Qed.

Lemma visualize_data_no_price_column_witness :
  visualize_data quiet_desktop (pd_DataFrame []) [] []
  = (Raise (KeyError "price"), [figure]).
Proof.
  apply (visualize_data_no_price_column quiet_desktop (pd_DataFrame []) [] []).
  - simpl. tauto.
  - reflexivity.
Defined.

(** The first two calls of a plot of the prices. *)
Lemma price_plot_begins (d : Desktop) {B} (tail : V B) (files : list text)
    (df : DataFrame) (calls : list plt_call) :
  saves tail files ->
  In "price"%string (columns df) ->
  plt d calls figure = Ok tt ->
  exists rest,
    snd (vbind (call d figure)
           (fun _ => vbind (vlift (df_getitem df "price" price))
              (fun prices => vbind (call d (hist (dropna_float prices)))
                 (fun _ => tail))) calls)
    = calls ++ figure :: hist (dropna_float (map price (rows df))) :: rest.
Proof.
  intros Htail Hcol Hfig. unfold vbind, call, vlift, df_getitem.
  rewrite Hfig.
  assert (Hc : existsb (String.eqb "price") (columns df) = true).
  { apply existsb_exists. exists "price"%string. split; [exact Hcol | reflexivity]. }
  rewrite Hc.
  destruct (plt d (calls ++ [figure]) (hist (dropna_float (map price (rows df)))))
    as [[] | e].
  - destruct (Htail ((calls ++ [figure])
                       ++ [hist (dropna_float (map price (rows df)))]))
      as (made & -> & _).
    exists made. now rewrite <- !app_assoc.
  - exists []. cbn [snd]. now rewrite <- !app_assoc.
Qed.

(** X20. When the frame of a run with a listing is plotted, the
    histogram of the prices gets the price of every row, in order:
    [dropna] drops none, since every kept price is a number. *)
Theorem price_histogram_complete
    (d : Desktop) (w : World) (city : text) (max_pages : Z) (st : state)
    (keywords_df : list KeywordRow) (calls : list plt_call) :
  exists df st',
    scrape_listings w city max_pages st = (Ok df, st')
    /\ (rows df <> [] ->
        plt d calls figure = Ok tt ->
        exists data rest,
          snd (visualize_data d df keywords_df calls)
          = calls ++ figure :: hist data :: rest
          /\ map Some data = map price (rows df)).
Proof.
  destruct (run_rows_forall w
              (fun l => exists f, price l = Some f /\ PyFloat.is_nan f = false))
    with (city := city) (max_pages := max_pages) (st := st)
    as (df & st' & Hrun & Hrows).
  { intros card l Hb Hp.
    destruct (build_listing_fields w card l Hb) as (Hprice & _).
    destruct (price l) as [f |]; [| discriminate Hp].
    exists f. split; [reflexivity |].
    destruct (extract_price_of_decimal w _ f Hprice) as (n & k & ->).
    destruct (of_decimal_nonneg n k) as [H | [(m & e & H) | H]];
      rewrite H; reflexivity. }
  exists df, st'. split; [exact Hrun |].
  intros Hne Hfig.
  assert (Hcol : In "price"%string (columns df)).
  { rewrite scrape_listings_run in Hrun. injection Hrun as <- _.
    rewrite rows_pd_DataFrame in Hne.
    destruct (flat_map _ _); [now contradiction Hne | simpl; auto]. }
  unfold visualize_data.
  eapply price_plot_begins with (df := df) (calls := calls) in Hfig;
    [| | exact Hcol].
  - destruct Hfig as (rest & Hfig). eexists. exists rest.
    split; [exact Hfig |].
    apply dropna_float_all.
    apply Forall_map. exact Hrows.
  - repeat first
      [ apply saves_then_savefig
      | apply saves_then; [reflexivity |]
      | apply saves_then_column; intros ? ].
    apply (saves_call d show).
Qed.

(* ================================================================= *)
(** * main *)

(** X21. Once the scraper is built, [main] asks for the pages 1 and 2 of
    Mumbai and hands the frame of that run to [to_csv], once and before
    any analysis: the call is made whether or not the analysis or the
    plots raise later. *)
Theorem main_writes_csv (d : Desktop) (w : World) (st : state) :
  construct d = Ok tt ->
  exists df st',
    scrape_listings w (txt "Mumbai") 2 st = (Ok df, st')
    /\ scraped (main d w st) = st'
    /\ filter is_get (skipn (List.length (trace st)) (trace st'))
       = [Get (page_url (txt "Mumbai") 1); Get (page_url (txt "Mumbai") 2)]
    /\ to_csv_calls (main d w st) = [(output_path d "raw_listings.csv", df)].
Proof.
  intros Hc. eexists. eexists. split; [apply scrape_listings_run |].
  unfold main. rewrite Hc, scrape_listings_run.
  split; [| split].
  - destruct (to_csv d _ _); [| reflexivity].
    destruct (analyze_keywords w _); [| reflexivity].
    destruct (visualize_data d _ _ []); reflexivity.
  - cbn [trace]. rewrite skipn_app, Nat.sub_diag, skipn_all. cbn [skipn app].
    apply (get_events w (txt "Mumbai") [1; 2]%Z).
  - destruct (to_csv d _ _); [| reflexivity].
    destruct (analyze_keywords w _); [| reflexivity].
    destruct (visualize_data d _ _ []); reflexivity.
Qed.

Lemma main_writes_csv_witness :
  exists df st',
    scrape_listings Sample.site (txt "Mumbai") 2 Sample.st0 = (Ok df, st')
    /\ scraped (main quiet_desktop Sample.site Sample.st0) = st'
    /\ filter is_get (skipn (List.length (trace Sample.st0)) (trace st'))
       = [Get (page_url (txt "Mumbai") 1); Get (page_url (txt "Mumbai") 2)]
    /\ to_csv_calls (main quiet_desktop Sample.site Sample.st0)
       = [(output_path quiet_desktop "raw_listings.csv", df)].
Proof.
  apply (main_writes_csv quiet_desktop Sample.site Sample.st0).
  reflexivity.
Defined.

(** X22. When the run keeps no listing (every fetch fails, say), [main]
    writes the empty frame as CSV and then raises the [KeyError] of
    [analyze_keywords]: it ends with an exception, and no figure is
    drawn or saved. *)
Theorem main_without_listings (d : Desktop) (w : World) (st : state) :
  construct d = Ok tt ->
  page_listings w (txt "Mumbai") 1 = [] ->
  page_listings w (txt "Mumbai") 2 = [] ->
  to_csv d (output_path d "raw_listings.csv") (pd_DataFrame []) = Ok tt ->
  returned (main d w st) = Raise (KeyError "title")
  /\ to_csv_calls (main d w st)
     = [(output_path d "raw_listings.csv", pd_DataFrame [])]
  /\ plotted (main d w st) = [].
Proof.
  intros Hc H1 H2 Hcsv. unfold main.
  rewrite Hc, scrape_listings_run.
  change (range 1 (2 + 1)) with [1; 2]%Z. cbn [flat_map].
  rewrite H1, H2. cbn [app]. rewrite Hcsv.
  repeat split.
Qed.

Lemma main_without_listings_witness :
  returned (main quiet_desktop Sample.down Sample.st0) = Raise (KeyError "title")
  /\ to_csv_calls (main quiet_desktop Sample.down Sample.st0)
     = [(output_path quiet_desktop "raw_listings.csv", pd_DataFrame [])]
  /\ plotted (main quiet_desktop Sample.down Sample.st0) = [].
Proof.
  apply (main_without_listings quiet_desktop Sample.down Sample.st0);
    reflexivity.
Defined.

(** X23. [main] returns normally only after a run that kept a listing:
    it has then written that frame as CSV and saved the three figures. *)
Theorem main_returns_only_with_listings (d : Desktop) (w : World) (st : state) :
  returned (main d w st) = Ok tt ->
  exists df,
    fst (scrape_listings w (txt "Mumbai") 2 st) = Ok df
    /\ rows df <> []
    /\ to_csv_calls (main d w st) = [(output_path d "raw_listings.csv", df)]
    /\ filter is_savefig (plotted (main d w st))
       = [savefig (output_path d "price_distribution.png");
          savefig (output_path d "top_keywords.png");
          savefig (output_path d "sentiment_distribution.png")].
Proof.
  unfold main. destruct (construct d) as [[] | e]; [| discriminate].
  rewrite scrape_listings_run. cbn [fst].
  set (ls := flat_map (page_listings w (txt "Mumbai")) (range 1 (2 + 1))).
  destruct (to_csv d (output_path d "raw_listings.csv") (pd_DataFrame ls))
    as [[] | e]; [| discriminate].
  destruct (analyze_keywords w (pd_DataFrame ls)) as [keywords_df | e] eqn:Ha;
    [| discriminate].
  destruct (visualize_data_saves d (pd_DataFrame ls) keywords_df [])
    as (made & Hsnd & _ & Hok).
  destruct (visualize_data d (pd_DataFrame ls) keywords_df []) as [r calls].
  cbn [fst snd returned to_csv_calls plotted] in *.
  intros ->. exists (pd_DataFrame ls). split; [reflexivity |].
  split; [| split; [reflexivity |]].
  - destruct ls; [discriminate Ha | discriminate].
  - subst calls. cbn [app]. exact (Hok tt eq_refl).
Qed.

Lemma main_returns_only_with_listings_witness :
  exists df,
    fst (scrape_listings Sample.site (txt "Mumbai") 2 Sample.st0) = Ok df
    /\ rows df <> []
    /\ to_csv_calls (main quiet_desktop Sample.site Sample.st0)
       = [(output_path quiet_desktop "raw_listings.csv", df)]
    /\ filter is_savefig (plotted (main quiet_desktop Sample.site Sample.st0))
       = [savefig (output_path quiet_desktop "price_distribution.png");
          savefig (output_path quiet_desktop "top_keywords.png");
          savefig (output_path quiet_desktop "sentiment_distribution.png")].
Proof.
  apply (main_returns_only_with_listings quiet_desktop Sample.site Sample.st0).
  reflexivity.
Defined.
